(** * d365-form-helpers: the specifier-resolution and bulk-dispatch engines

    A shallow embedding of [src/core/PrimaryControl.ts], [CheckTypes],
    [utils/logger.ts] and [Provider] and the properties of the three
    generic engines [getObject], [setToObject] and [addHandler].

    The program is dynamically typed JavaScript: one specifier argument is a
    string, a number, an array, a function or an object, and the engines
    dispatch on [typeof].  Values are therefore one inductive type,
    [JsValue]; host calls and [console.warn] are effects of a small state and
    exception monad [M] over the host [World]. *)

From Stdlib Require Import ZArith String Ascii List Bool Lia.
From stdpp Require Import base option list strings gmap pretty.

Local Open Scope Z_scope.

(** ** JavaScript values *)

Module Js.

(** A host object (attribute, control, execution context, ...).  Its
    identity is [oid]; [oname] is what [getName()] answers and the key the
    host collection files it under; [omethods] lists the properties whose
    [typeof] is ["function"].  The method table of a host object never
    changes, so it is part of the value. *)
Record Obj : Type := mkObj {
  oid : nat;
  oname : string;
  omethods : list string
}.

(** A function value.  [fn_match] is what the function answers when the
    host uses it as an [Xrm.Collection.MatchingDelegate], that is when it is
    called as [f(item, index)]; an event handler is only identified. *)
Record Fn : Type := mkFn {
  fn_id : nat;
  fn_match : Obj -> Z -> bool
}.

(** [JNumber n] is the double whose value is the integer [n] (names and
    indexes are all the engines compute with); [NaN], infinities and
    fractions are outside the model.  An array is a finite list of values:
    an array that contains itself is outside the model too. *)
#[warnings="-register-all"] Inductive JsValue : Type :=
| JUndefined
| JNull
| JBool (b : bool)
| JNumber (n : Z)
| JString (s : string)
| JFunction (f : Fn)
| JObject (o : Obj)
| JArray (items : list JsValue).

(** [typeof v] *)
Definition typeof (v : JsValue) : string :=
  match v with
  | JUndefined => "undefined"
  | JNull => "object"
  | JBool _ => "boolean"
  | JNumber _ => "number"
  | JString _ => "string"
  | JFunction _ => "function"
  | JObject _ => "object"
  | JArray _ => "object"
  end.

(** [ToBoolean(v)]: the test of [if (v)] and the operand of [!v]. *)
Definition truthy (v : JsValue) : bool :=
  match v with
  | JUndefined => false
  | JNull => false
  | JBool b => b
  | JNumber n => negb (n =? 0)
  | JString s => negb (String.eqb s EmptyString)
  | JFunction _ => true
  | JObject _ => true
  | JArray _ => true
  end.

(** [!v] *)
Definition falsy (v : JsValue) : bool := negb (truthy v).

(** [v !== null] *)
Definition strict_ne_null (v : JsValue) : bool :=
  match v with
  | JNull => false
  | _ => true
  end.

(** [a ?? b] *)
Definition nullish (a b : JsValue) : JsValue :=
  match a with
  | JUndefined => b
  | JNull => b
  | _ => a
  end.

(** [typeof v[m] === "function"] for a value [v] on which the property
    read does not throw. *)
Definition has_method (v : JsValue) (m : string) : bool :=
  match v with
  | JObject o => existsb (String.eqb m) (omethods o)
  | _ => false
  end.

(** *** The text of a number

    [Number::toString] for an integer-valued double: the shortest digit
    string [s] such that [s] followed by zeros is a number whose nearest
    double is the given one; that string followed by the zeros up to 21
    digits, and in exponent form beyond.  All quantities are integers, so
    the rounding interval of the double is computed in [Z]. *)

(** The exponent [e] of the double [a = m * 2^e], [m] below [2^53]; the
    integers below [2^53] are taken with [e = 0]. *)
Definition ulp_exponent (a : Z) : Z := Z.max 0 (Z.log2 a - 52).

(** The double nearest to the integer [c] is [a] (ties go to the even
    significand; below a power of two the doubles are twice as dense). *)
Definition rounds_to (a c : Z) : bool :=
  let e := ulp_exponent a in
  let m := a / 2 ^ e in
  let above := 2 ^ e in
  let below := if (m =? 2 ^ 52) && (1 <=? e) then 2 ^ (e - 1) else 2 ^ e in
  if Z.even m then (2 * a - below <=? 2 * c) && (2 * c <=? 2 * a + above)
  else (2 * a - below <? 2 * c) && (2 * c <? 2 * a + above).

(** The digits [s] and the number of integer digits of the shortest
    decimal that rounds to [a], a number of [p] digits; [ks] are the
    lengths still to try, in increasing order.  Of two candidates of one
    length the closer to [a] is taken, the even one on a tie. *)
Fixpoint shortest_digits (a : Z) (p : nat) (ks : list nat) : Z * Z :=
  match ks with
  | [] => (a, Z.of_nat p)
  | k :: rest =>
      let scale := 10 ^ Z.of_nat (p - k) in
      let s0 := a / scale in
      let s1 := s0 + 1 in
      let ok0 := rounds_to a (s0 * scale) in
      let ok1 := rounds_to a (s1 * scale) in
      let d0 := a - s0 * scale in
      let d1 := s1 * scale - a in
      let s := if ok0 && ok1
               then (if d0 <? d1 then s0
                     else if d1 <? d0 then s1
                     else if Z.even s0 then s0 else s1)
               else if ok0 then s0 else s1 in
      if ok0 || ok1 then
        if s =? 10 ^ Z.of_nat k then (1, Z.of_nat p + 1) else (s, Z.of_nat p)
      else shortest_digits a p rest
  end.

Definition zeros (n : Z) : string :=
  string_of_list_ascii (repeat "0"%char (Z.to_nat n)).

(** [String(n)] and the text a template literal inserts for [n] *)
Definition number_text (n : Z) : string :=
  if n =? 0 then "0"
  else
    let a := Z.abs n in
    let p := String.length (pretty a) in
    let '(s, position) := shortest_digits a p (seq 1 p) in
    let digits := pretty s in
    let body :=
      if position <=? 21 then
        digits +:+ zeros (position - Z.of_nat (String.length digits))
      else
        match digits with
        | String d EmptyString => digits +:+ "e+" +:+ pretty (position - 1)
        | String d more => String d ("." +:+ more) +:+ "e+" +:+ pretty (position - 1)
        | EmptyString => digits
        end in
    if n <? 0 then "-" +:+ body else body.

(** The text a template literal inserts for a primitive value.  An object
    prints as its default tag; the text of an array or a function is not
    needed by any path of the program and is left as a tag too. *)
Definition to_text (v : JsValue) : string :=
  match v with
  | JUndefined => "undefined"
  | JNull => "null"
  | JBool true => "true"
  | JBool false => "false"
  | JNumber n => number_text n
  | JString s => s
  | JFunction _ => "[function]"
  | JObject _ => "[object Object]"
  | JArray _ => "[array]"
  end.

(** Why the runtime raised a [TypeError]: a property read on [undefined]
    or on [null], a call of something that is not a function, a [for ... of]
    over something that is not iterable. *)
Inductive TypeErrorCause : Type :=
| PropertyOfUndefined (property : string)
| PropertyOfNull (property : string)
| NotAFunction (property : string)
| NotIterable.

(** What a [throw] carries: a [TypeError] of the runtime, or the [Error] the
    program builds itself, with its message. *)
Inductive JsError : Type :=
| TypeError (cause : TypeErrorCause)
| Error (msg : string).

End Js.
Export Js.

(** ** The host world and the effect monad *)

(** What the program does to the outside: a call of a state-changing host
    method on a host object, or one call of [console.warn(...data)]. *)
Inductive Event : Type :=
| HostCall (target : Obj) (method : string) (arg : JsValue)
| Warn (data : list JsValue).

(** The host state: the current value of every attribute (by object
    identity) and the trace of what was done so far. *)
Record World : Type := mkWorld {
  vals : gmap nat JsValue;
  log : list Event
}.

Inductive Outcome (A : Type) : Type :=
| Ret (a : A)
| Throw (e : JsError).
Arguments Ret {A} a.
Arguments Throw {A} e.

Definition M (A : Type) : Type := World -> Outcome A * World.

#[global] Instance M_ret : MRet M := fun A a w => (Ret a, w).

#[global] Instance M_bind : MBind M := fun A B k c w =>
  match c w with
  | (Ret a, w') => k a w'
  | (Throw e, w') => (Throw e, w')
  end.

Definition throw {A : Type} (e : JsError) : M A := fun w => (Throw e, w).

Definition emit (ev : Event) : M unit :=
  fun w => (Ret tt, {| vals := vals w; log := log w ++ [ev] |}).

Section Loops.

Context {A : Type}.

(** [for (const x of l) body(x)], [l.forEach(body)] and a [l.flatMap(body)]
    whose result is dropped: the callback runs on every element in order,
    and an exception ends the loop. *)
Fixpoint for_each (body : A -> M unit) (l : list A) : M unit :=
  match l with
  | [] => mret tt
  | x :: rest => body x ;; for_each body rest
  end.

(** [l.map(f)] for an effectful callback *)
Fixpoint map_each (f : A -> M JsValue) (l : list A) : M (list JsValue) :=
  match l with
  | [] => mret []
  | x :: rest => y ← f x; ys ← map_each f rest; mret (y :: ys)
  end.

End Loops.

(** The elements of [v] for [v.method(callback)], with [method] one of
    [forEach] and [map]: only an array has the method. *)
Definition array_method (v : JsValue) (method : string) : M (list JsValue) :=
  match v with
  | JArray l => mret l
  | JUndefined => throw (TypeError (PropertyOfUndefined method))
  | JNull => throw (TypeError (PropertyOfNull method))
  | _ => throw (TypeError (NotAFunction method))
  end.

(** The elements of [v] for [for (const x of v)]: those of an array, the
    characters of a string; no other value of the model is iterable. *)
Definition iterate (v : JsValue) : M (list JsValue) :=
  match v with
  | JArray l => mret l
  | JString s =>
      mret (map (fun c => JString (String c EmptyString)) (list_ascii_of_string s))
  | _ => throw (TypeError NotIterable)
  end.

(** ** The host form model (Xrm) *)

Module Xrm.

(** Modelled from the spec: the host object model is not part of the
    repository.  A call [target.method(arg)]: reading a property of
    [null] or [undefined] throws, calling a missing method throws;
    [getValue] answers the stored value ([null] when empty), [setValue]
    stores it, and every method other than [getValue] is recorded in the
    trace. *)
Definition invoke (target : JsValue) (method : string) (arg : JsValue) : M JsValue :=
  match target with
  | JUndefined => throw (TypeError (PropertyOfUndefined method))
  | JNull => throw (TypeError (PropertyOfNull method))
  | JObject o =>
      if has_method target method then
        if String.eqb method "getValue" then
          fun w => (Ret (default JNull (vals w !! oid o)), w)
        else if String.eqb method "setValue" then
          fun w => (Ret JUndefined,
                    {| vals := <[oid o := arg]> (vals w);
                       log := log w ++ [HostCall o method arg] |})
        else
          emit (HostCall o method arg) ;; mret JUndefined
      else throw (TypeError (NotAFunction method))
  | _ => throw (TypeError (NotAFunction method))
  end.

(** The items a matching delegate [f(item, index)] accepts, in collection
    order; [i] is the index of the first item. *)
Fixpoint matching (f : Fn) (i : Z) (items : list Obj) : list Obj :=
  match items with
  | [] => []
  | o :: rest =>
      if fn_match f o i then o :: matching f (i + 1) rest
      else matching f (i + 1) rest
  end.

(** Modelled from the spec: the named collection of the host
    ([lookupOne] for a name or an index, [lookupMany] for a predicate).
    [collection.get(key)]: a string looks the item up by name, a number by
    position, both answer [null] when there is none; a function answers the
    array of the items it accepts; no argument answers all items. *)
Definition get (items : list Obj) (key : JsValue) : JsValue :=
  match key with
  | JString s =>
      match find (fun o => String.eqb (oname o) s) items with
      | Some o => JObject o
      | None => JNull
      end
  | JNumber n =>
      if n <? 0 then JNull
      else match items !! Z.to_nat n with
           | Some o => JObject o
           | None => JNull
           end
  | JFunction f => JArray (map JObject (matching f 0 items))
  | JUndefined => JArray (map JObject items)
  | _ => JNull
  end.

(** [Xrm.FormContext]: the attribute and control collections of a form. *)
Record FormContext : Type := mkForm {
  attributes : list Obj;
  controls : list Obj
}.

End Xrm.

(** ** utils/logger.ts *)

Module Logger.

(** [console.warn(...data)] *)
Definition console_warn (data : list JsValue) : M unit := emit (Warn data).

(** [logMessage(logger, ...data)] *)
Definition logMessage (logger : list JsValue -> M unit) (data : list JsValue) : M unit :=
  logger data.

(** [warnMessage(...data)] *)
Definition warnMessage (data : list JsValue) : M unit := logMessage console_warn data.

End Logger.
Export Logger.

(** ** CheckTypes *)

Module CheckTypes.

Definition isObject (obj : JsValue) : bool :=
  String.eqb (typeof obj) "object" && strict_ne_null obj.

Definition isAttribute (obj : JsValue) : bool :=
  isObject obj && has_method obj "getAttributeType".

Definition isTabControl (obj : JsValue) : bool :=
  isObject obj && has_method obj "addTabStateChange".

Definition isControl (obj : JsValue) : bool :=
  isObject obj && has_method obj "getControlType".

Definition isStandardControl (obj : JsValue) : bool :=
  isObject obj && has_method obj "clearNotification".

Definition isLookupControl (obj : JsValue) : bool :=
  isObject obj && has_method obj "addOnLookupTagClick".

Definition isDateControl (obj : JsValue) : bool :=
  isObject obj && has_method obj "getShowTime".

Definition isOptionSetControl (obj : JsValue) : bool :=
  isObject obj && has_method obj "addOption".

Definition isGridControl (obj : JsValue) : bool :=
  isObject obj && has_method obj "getGrid".

Definition isIframeControl (obj : JsValue) : bool :=
  isObject obj && has_method obj "getContentWindow".

Definition isKbSearchControl (obj : JsValue) : bool :=
  isObject obj && has_method obj "addOnPostSearch".

Definition isExecutionContext (context : JsValue) : bool :=
  isObject context && has_method context "getFormContext".

Definition isControlCanSetVisible (context : JsValue) : bool :=
  isControl context && has_method context "setVisible".

Definition isControlCanSetDisabled (context : JsValue) : bool :=
  isControl context && has_method context "setDisabled".

End CheckTypes.
Export CheckTypes.

(** ** core/PrimaryControl.ts *)

(** An instance of the class: its one field. *)
Record PrimaryControl : Type := mkPrimaryControl {
  formContext : Xrm.FormContext
}.

Definition dquote : string := String "034"%char EmptyString.

(** [typeof input === "string" || typeof input === "number"]: the test of
    the scalar branch of the three engines. *)
Definition scalar_key (input : JsValue) : bool :=
  String.eqb (typeof input) "string" || String.eqb (typeof input) "number".

(** *** The generic engines

    The branches are tried in the order of the source: [undefined], array,
    string or number, function, and last the direct instance.  The match on
    the shape of [input] is that chain of [typeof] tests. *)

(** [setToObject(input, value, getter, getterAll, valueApplier, isValid)] *)
Fixpoint setToObject (input value : JsValue)
    (getter getterAll : JsValue -> M JsValue)
    (valueApplier : JsValue -> JsValue -> M unit)
    (isValid : JsValue -> bool) {struct input} : M unit :=
  match input with
  | JUndefined => mret tt
  | JArray components =>
      for_each
        (fun component =>
           setToObject component value getter getterAll valueApplier isValid)
        components
  | JString _ | JNumber _ =>
      component ← getter input;
      if falsy component then valueApplier component value
      else mret tt
  | JFunction _ =>
      components ← getterAll input;
      items ← array_method components "forEach";
      for_each (fun control => valueApplier control value) items
  | _ =>
      if isValid input then valueApplier input value
      else mret tt
  end.

(** [getObject(input, resolver, resolverAll)] *)
Definition getObject (input : JsValue)
    (resolver resolverAll : JsValue -> M JsValue) : M JsValue :=
  match input with
  | JUndefined => mret JNull
  | JArray elements =>
      objects ← map_each (fun object => resolver object) elements;
      mret (JArray (List.filter strict_ne_null objects))
  | JString _ | JNumber _ =>
      control ← resolver input;
      if falsy control then mret JNull
      else mret control
  | _ => resolverAll input
  end.

(** [addHandler(input, get, getDelegate, apply, isValid, addHandlerName)] *)
Fixpoint addHandler (input : JsValue)
    (get getDelegate : JsValue -> M JsValue)
    (apply : JsValue -> M unit)
    (isValid : JsValue -> bool)
    (addHandlerName : string) {struct input} : M unit :=
  match input with
  | JUndefined =>
      warnMessage
        [JString ("[PrimaryControl - Warning] " +:+ addHandlerName
                  +:+ ": Unsupported input:"); input]
  | JArray elements =>
      for_each
        (fun i => addHandler i get getDelegate apply isValid addHandlerName)
        elements
  | JString _ | JNumber _ =>
      item ← get input;
      if truthy item then apply item
      else
        warnMessage
          [JString ("[PrimaryControl - Warning] " +:+ addHandlerName
                    +:+ ": Attribute " +:+ dquote
                    +:+ to_text (nullish input (JString "(unknown)"))
                    +:+ dquote +:+ " not found.")]
  | JFunction _ =>
      items ← getDelegate input;
      items ← iterate items;
      for_each (fun item => apply item) items
  | _ =>
      if isValid input then apply input
      else
        warnMessage
          [JString ("[PrimaryControl - Warning] " +:+ addHandlerName
                    +:+ ": Unhandled input type (" +:+ typeof input +:+ ")");
           input]
  end.

(** *** The getters built on [getObject]

    [getAttribute] and [getControl] are also handed over as bare function
    values ([this.getAttribute] as the [getter] of [setToObject]).  Class
    bodies are strict code, so a method called that way runs with [this]
    undefined, and its first step, the read of [this.getObject], throws.
    [this] is therefore an argument of these two: [Some self] for a call
    [self.getAttribute(x)], [None] for a call through a detached
    reference. *)

Definition getAttribute (this : option PrimaryControl) (input : JsValue) : M JsValue :=
  match this with
  | None => throw (TypeError (PropertyOfUndefined "getObject"))
  | Some self =>
      getObject input
        (fun input => mret (Xrm.get (Xrm.attributes (formContext self)) input))
        (fun input => mret (Xrm.get (Xrm.attributes (formContext self)) input))
  end.

Definition getControl (this : option PrimaryControl) (input : JsValue) : M JsValue :=
  match this with
  | None => throw (TypeError (PropertyOfUndefined "getObject"))
  | Some self =>
      getObject input
        (fun input => mret (Xrm.get (Xrm.controls (formContext self)) input))
        (fun input => mret (Xrm.get (Xrm.controls (formContext self)) input))
  end.

(** *** Event setters built on [addHandler] *)

Definition addOnChange (self : PrimaryControl) (input handler : JsValue) : M unit :=
  addHandler input
    (fun input => getAttribute (Some self) input)
    (fun input => getAttribute (Some self) input)
    (fun attribute => Xrm.invoke attribute "addOnChange" handler ;; mret tt)
    isAttribute
    "addOnChange".

Definition addOnLookupTagClick (self : PrimaryControl) (input handler : JsValue) : M unit :=
  addHandler input
    (fun input => getControl (Some self) input)
    (fun input => getControl (Some self) input)
    (fun lookupControl => Xrm.invoke lookupControl "addOnLookupTagClick" handler ;; mret tt)
    isLookupControl
    "addOnLookupTagClick".

Definition addPreSearch (self : PrimaryControl) (input handler : JsValue) : M unit :=
  addHandler input
    (fun input => getControl (Some self) input)
    (fun input => getControl (Some self) input)
    (fun lookupControl => Xrm.invoke lookupControl "addPreSearch" handler ;; mret tt)
    isLookupControl
    "addPreSearch".

(** *** Value readers and writers *)

(** [a?.getValue()] *)
Definition optional_getValue (a : JsValue) : M JsValue :=
  match a with
  | JUndefined | JNull => mret JUndefined
  | _ => Xrm.invoke a "getValue" JUndefined
  end.

Definition getAttributeValue (self : PrimaryControl) (input : JsValue) : M JsValue :=
  if falsy input then
    warnMessage
      [JString "[PrimaryControl - Warning] getAttributeValue: Unsupported input type:";
       input] ;;
    mret JNull
  else
    getObject input
      (fun input =>
         v ← optional_getValue (Xrm.get (Xrm.attributes (formContext self)) input);
         mret (nullish v JNull))
      (fun input =>
         found ← array_method (Xrm.get (Xrm.attributes (formContext self)) input) "map";
         values ← map_each (fun attribute => Xrm.invoke attribute "getValue" JUndefined) found;
         mret (JArray values)).

(** The writers share one shape: the falsy-input guard with its message,
    then [setToObject] with the detached getter, the host method and the
    capability guard. *)
Definition setAttributeValue (self : PrimaryControl) (input value : JsValue) : M unit :=
  if falsy input then
    warnMessage
      [JString "[PrimaryControl - Warning] getAttributeValue: Unsupported input type:";
       input]
  else
    setToObject input value
      (getAttribute None)
      (getAttribute None)
      (fun input value => Xrm.invoke input "setValue" value ;; mret tt)
      isAttribute.

Definition setRequiredLevel (self : PrimaryControl) (input requirementLevel : JsValue) : M unit :=
  if falsy input then
    warnMessage
      [JString "[PrimaryControl - Warning] setRequiredLevel: Unsupported input type:";
       input]
  else
    setToObject input requirementLevel
      (getAttribute None)
      (getAttribute None)
      (fun control requirementLevel =>
         Xrm.invoke control "setRequiredLevel" requirementLevel ;; mret tt)
      isAttribute.

Definition setOptional (self : PrimaryControl) (input : JsValue) : M unit :=
  if falsy input then
    warnMessage
      [JString "[PrimaryControl - Warning] setOptional: Unsupported input type:";
       input]
  else
    setToObject input (JString "none")
      (getAttribute None)
      (getAttribute None)
      (fun control requirementLevel =>
         Xrm.invoke control "setRequiredLevel" requirementLevel ;; mret tt)
      isAttribute.

Definition setRecommended (self : PrimaryControl) (input : JsValue) : M unit :=
  if falsy input then
    warnMessage
      [JString "[PrimaryControl - Warning] setRecommended: Unsupported input type:";
       input]
  else
    setToObject input (JString "recommended")
      (getAttribute None)
      (getAttribute None)
      (fun control requirementLevel =>
         Xrm.invoke control "setRequiredLevel" requirementLevel ;; mret tt)
      isAttribute.

Definition setMandatory (self : PrimaryControl) (input : JsValue) : M unit :=
  if falsy input then
    warnMessage
      [JString "[PrimaryControl - Warning] setMandatory: Unsupported input type:";
       input]
  else
    setToObject input (JString "required")
      (getAttribute None)
      (getAttribute None)
      (fun control requirementLevel =>
         Xrm.invoke control "setRequiredLevel" requirementLevel ;; mret tt)
      isAttribute.

Definition setVisible (self : PrimaryControl) (input isVisible : JsValue) : M unit :=
  if falsy input then
    warnMessage
      [JString "[PrimaryControl - Warning] setVisible: Unsupported input type:";
       input]
  else
    setToObject input isVisible
      (getControl None)
      (getControl None)
      (fun control isVisible => Xrm.invoke control "setVisible" isVisible ;; mret tt)
      isControlCanSetVisible.

Definition setDisabled (self : PrimaryControl) (input isDisabled : JsValue) : M unit :=
  if falsy input then
    warnMessage
      [JString "[PrimaryControl - Warning] setDisabled: Unsupported input type:";
       input]
  else
    setToObject input isDisabled
      (getControl None)
      (getControl None)
      (fun control isDisabled => Xrm.invoke control "setDisabled" isDisabled ;; mret tt)
      isControlCanSetDisabled.

(** *** The other event setters built on [addHandler] *)

(** A host method that only answers: [target.method()] with the host's
    answer [answer]; the read and the call fail as in [Xrm.invoke]. *)
Definition query (target : JsValue) (method : string) (answer : Obj -> JsValue) : M JsValue :=
  match target with
  | JUndefined => throw (TypeError (PropertyOfUndefined method))
  | JNull => throw (TypeError (PropertyOfNull method))
  | JObject o =>
      if has_method target method then mret (answer o)
      else throw (TypeError (NotAFunction method))
  | _ => throw (TypeError (NotAFunction method))
  end.

Definition addSubGridOnLoad (self : PrimaryControl) (input handler : JsValue) : M unit :=
  addHandler input
    (fun input => getControl (Some self) input)
    (fun input => getControl (Some self) input)
    (fun gridControl => Xrm.invoke gridControl "addOnLoad" handler ;; mret tt)
    isGridControl
    "addSubGridOnLoad".

Section Grid.

(** What the host answers to [gridControl.getGrid()]. *)
Variable getGrid : Obj -> JsValue.

Definition addSubGridOnRecordSelect (self : PrimaryControl) (input handler : JsValue) : M unit :=
  addHandler input
    (fun input => getControl (Some self) input)
    (fun input => getControl (Some self) input)
    (fun gridControl =>
       grid ← query gridControl "getGrid" getGrid;
       Xrm.invoke grid "addOnRecordSelect" handler ;; mret tt)
    isGridControl
    "addSubGridOnSave".

End Grid.

Definition addOnReadyStateComplete (self : PrimaryControl) (input handler : JsValue) : M unit :=
  addHandler input
    (fun input => getControl (Some self) input)
    (fun input => getControl (Some self) input)
    (fun iframeControl => Xrm.invoke iframeControl "addOnReadyStateComplete" handler ;; mret tt)
    isIframeControl
    "addOnReadyStateComplete".

Definition addOnOutputChange (self : PrimaryControl) (input handler : JsValue) : M unit :=
  addHandler input
    (fun input => getControl (Some self) input)
    (fun input => getControl (Some self) input)
    (fun control => Xrm.invoke control "addOnOutputChange" handler ;; mret tt)
    isStandardControl
    "addOnOutputChange".

Definition addOnResultOpened (self : PrimaryControl) (input handler : JsValue) : M unit :=
  addHandler input
    (fun input => getControl (Some self) input)
    (fun input => getControl (Some self) input)
    (fun control => Xrm.invoke control "addOnResultOpened" handler ;; mret tt)
    isKbSearchControl
    "addOnResultOpened".

Definition addOnSelection (self : PrimaryControl) (input handler : JsValue) : M unit :=
  addHandler input
    (fun input => getControl (Some self) input)
    (fun input => getControl (Some self) input)
    (fun control => Xrm.invoke control "addOnSelection" handler ;; mret tt)
    isKbSearchControl
    "addOnSelection".

Definition addOnPostSearch (self : PrimaryControl) (input handler : JsValue) : M unit :=
  addHandler input
    (fun input => getControl (Some self) input)
    (fun input => getControl (Some self) input)
    (fun control => Xrm.invoke control "addOnPostSearch" handler ;; mret tt)
    isKbSearchControl
    "addOnPostSearch".

(** *** Tabs and sections: [getTab] and [getSection] *)

(** [l.find(section => !!section)] *)
Definition find_truthy (l : list JsValue) : JsValue :=
  match List.find truthy l with
  | Some section => section
  | None => JUndefined
  end.

(** What [flatMap] makes of the answers of its callback: the elements of
    an array answer, any other answer itself. *)
Definition flatten_once (l : list JsValue) : list JsValue :=
  concat (map (fun v => match v with JArray xs => xs | _ => [v] end) l).

Section Tabs.

(** The tab collection of the form, [this.formContext.ui.tabs]. *)
Variable tabs : list Obj.

(** The value of [new TabControl(tabControl)]. *)
Variable newTabControl : JsValue -> JsValue.

(** [tab.getSection(input)] on such a value. *)
Variable TabControl_getSection : JsValue -> JsValue -> M JsValue.

Definition getTab (this : option PrimaryControl) (input : JsValue) : M JsValue :=
  match this with
  | None => throw (TypeError (PropertyOfUndefined "getObject"))
  | Some self =>
      getObject input
        (fun input =>
           let tabControl := Xrm.get tabs input in
           if truthy tabControl then mret (newTabControl tabControl)
           else mret JNull)
        (fun input =>
           found ← array_method (Xrm.get tabs input) "map";
           mret (JArray (map newTabControl found)))
  end.

Definition getSection (this : option PrimaryControl) (input : JsValue) : M JsValue :=
  match this with
  | None => throw (TypeError (PropertyOfUndefined "getObject"))
  | Some self =>
      getObject input
        (fun input =>
           all ← getTab (Some self) JUndefined;
           found ← array_method all "map";
           sections ← map_each (fun tab => TabControl_getSection tab input) found;
           mret (nullish (find_truthy sections) JNull))
        (fun input =>
           all ← getTab (Some self) JUndefined;
           found ← array_method all "flatMap";
           sections ← map_each (fun tab => TabControl_getSection tab input) found;
           mret (JArray (flatten_once sections)))
  end.

End Tabs.

(** ** Provider *)

Module Provider.

(** What [Provider.from] builds: [new FormContext(context)], whose
    constructor keeps the context and what [context.getFormContext()]
    answers, or [new PrimaryControl(context)], which keeps the context. *)
Inductive Wrapper : Type :=
| NewFormContext (executionContext : JsValue) (formContext : JsValue)
| NewPrimaryControl (formContext : JsValue).

Section From.

(** What the host answers to [context.getFormContext()]. *)
Variable getFormContext : Obj -> JsValue.

Definition from (context : JsValue) : Outcome Wrapper :=
  if truthy context then
    if isExecutionContext context then
      match context with
      | JObject o => Ret (NewFormContext context (getFormContext o))
      | _ => Throw (TypeError (NotAFunction "getFormContext"))
      end
    else Ret (NewPrimaryControl context)
  else
    Throw (Error ("[D365 Form Scripting Framework - Provider] Invalid context provided. Provided context: "
                  +:+ to_text context)).

End From.

End Provider.

(** ** A sample form

    The contact form of the README: two attributes and two controls, and a
    host object that is neither. *)

Module Sample.

Definition attribute_methods : list string :=
  ["getAttributeType"; "getName"; "getValue"; "setValue"; "addOnChange";
   "setRequiredLevel"].

Definition firstname : Obj := mkObj 1 "firstname" attribute_methods.
Definition creditlimit : Obj := mkObj 2 "creditlimit" attribute_methods.

Definition mobilephone : Obj :=
  mkObj 3 "mobilephone"
    ["getControlType"; "getName"; "clearNotification"; "setVisible"; "setDisabled"].
Definition parentaccountid : Obj :=
  mkObj 4 "parentaccountid"
    ["getControlType"; "getName"; "clearNotification"; "setVisible"; "setDisabled";
     "addOnLookupTagClick"; "addPreSearch"].

(** A section: an object of the form that is neither attribute nor control. *)
Definition section : Obj := mkObj 5 "AddressSection" ["getName"; "setVisible"].

(** An event context. *)
Definition executionContext : Obj :=
  mkObj 6 "executionContext" ["getFormContext"; "getDepth"; "getEventSource"].

Definition form : Xrm.FormContext :=
  Xrm.mkForm [firstname; creditlimit] [mobilephone; parentaccountid].

Definition helper : PrimaryControl := mkPrimaryControl form.

(** [firstname] holds ["Ann"], [creditlimit] holds [0]; nothing done yet. *)
Definition world : World :=
  mkWorld (<[2%nat := JNumber 0]> (<[1%nat := JString "Ann"]> ∅)) [].

Definition handler : JsValue := JFunction (mkFn 100 (fun _ _ => false)).

(** [a => a.getName().startsWith("credit")], as the host evaluates it *)
Definition credit_only : Fn :=
  mkFn 101 (fun o _ => String.prefix "credit" (oname o)).


End Sample.

(** ** Vocabulary of the statements *)

(** The guards of [CheckTypes] that the engines and the factory use. *)
Definition capability_guards : list (JsValue -> bool) :=
  [isAttribute; isTabControl; isControl; isStandardControl; isLookupControl;
   isGridControl; isIframeControl; isKbSearchControl; isControlCanSetVisible;
   isControlCanSetDisabled; isExecutionContext].

(** The world after one more [console.warn(...data)]. *)
Definition warned (w : World) (data : list JsValue) : World :=
  {| vals := vals w; log := log w ++ [Warn data] |}.

(** The world after the host calls [calls], none of which stores a value. *)
Definition called (w : World) (calls : list Event) : World :=
  {| vals := vals w; log := log w ++ calls |}.

(** A computation that returns from every world. *)
Definition returns {A : Type} (c : M A) : Prop :=
  forall w, exists a w', c w = (Ret a, w').

(** A computation that leaves the world as it found it, whether it
    returns or throws. *)
Definition quiet {A : Type} (c : M A) : Prop :=
  forall w, snd (c w) = w.

(** Induction on a value, with the elements of an array as sub-values. *)
Section JsValueInduction.

Variable P : JsValue -> Prop.
Hypothesis P_undefined : P JUndefined.
Hypothesis P_null : P JNull.
Hypothesis P_bool : forall b, P (JBool b).
Hypothesis P_number : forall n, P (JNumber n).
Hypothesis P_string : forall s, P (JString s).
Hypothesis P_function : forall f, P (JFunction f).
Hypothesis P_object : forall o, P (JObject o).
Hypothesis P_array : forall items, Forall P items -> P (JArray items).

Fixpoint JsValue_nested_ind (v : JsValue) : P v :=
  match v with
  | JUndefined => P_undefined
  | JNull => P_null
  | JBool b => P_bool b
  | JNumber n => P_number n
  | JString s => P_string s
  | JFunction f => P_function f
  | JObject o => P_object o
  | JArray items =>
      P_array items
        ((fix all (l : list JsValue) : Forall P l :=
            match l with
            | [] => List.Forall_nil P
            | x :: rest =>
                @List.Forall_cons JsValue P x rest (JsValue_nested_ind x) (all rest)
            end) items)
  end.

End JsValueInduction.

(** * Properties *)

(** ** The text of numbers *)

(** Integers the doubles hold exactly print all their digits; larger ones
    print their shortest digits, padded with zeros below [10^21] and in
    exponent form from there on. *)
Example number_text_samples :
  map number_text
    [0; 7; -5; 2 ^ 53; 2 ^ 60; 2 ^ 64; 10 ^ 21; -(10 ^ 21); 15 * 10 ^ 20; 2 ^ 70] =
  ["0"; "7"; "-5"; "9007199254740992"; "1152921504606847000";
   "18446744073709552000"; "1e+21"; "-1e+21"; "1.5e+21";
   "1.1805916207174113e+21"].
Proof. vm_compute. reflexivity. Qed.

(** ** Running the monad *)

Lemma run_ret {A : Type} (a : A) (w : World) : (mret a : M A) w = (Ret a, w).
Proof. reflexivity. Qed.

Lemma run_bind {A B : Type} (c : M A) (k : A -> M B) (w : World) :
  (c ≫= k) w =
  match c w with
  | (Ret a, w') => k a w'
  | (Throw e, w') => (Throw e, w')
  end.
Proof. reflexivity. Qed.

Lemma run_bind_ret {A B : Type} (c : M A) (k : A -> M B) (w w' : World) (a : A) :
  c w = (Ret a, w') -> (c ≫= k) w = k a w'.
Proof. intros H. rewrite run_bind, H. reflexivity. Qed.

Lemma run_warn (data : list JsValue) (w : World) :
  warnMessage data w = (Ret tt, {| vals := vals w; log := log w ++ [Warn data] |}).
Proof. reflexivity. Qed.

(** A callback that only queries the host leaves the world alone, and
    [map] over it is the list map. *)
Lemma map_each_pure {A : Type} (r : A -> JsValue) (l : list A) (w : World) :
  map_each (fun x => mret (r x)) l w = (Ret (map r l), w).
Proof.
  induction l as [|x l IH]; simpl.
  - reflexivity.
  - rewrite run_bind, run_ret, run_bind, IH. reflexivity.
Qed.

(** ** The host collection *)

(** A key looked up by name or by position is answered with an item of the
    collection or with [null]. *)
Lemma get_one_item_or_null (items : list Obj) (key : JsValue) :
  scalar_key key = true ->
  Xrm.get items key = JNull \/ exists o, Xrm.get items key = JObject o /\ In o items.
Proof.
  destruct key; unfold scalar_key; simpl; try discriminate; intros _.
  - destruct (n <? 0); [now left|].
    destruct (items !! Z.to_nat n) as [o|] eqn:E; [right|now left].
    exists o. split; [reflexivity|].
    apply list_elem_of_In. eapply list_elem_of_lookup_2. exact E.
  - destruct (find _ items) as [o|] eqn:E; [right|now left].
    exists o. split; [reflexivity|]. apply find_some in E. tauto.
Qed.

Lemma get_by_name_truthy_or_null (items : list Obj) (x : string) :
  falsy (Xrm.get items (JString x)) = true -> Xrm.get items (JString x) = JNull.
Proof.
  simpl. destruct (find _ items); [discriminate|reflexivity].
Qed.

(** The delegate's matches are the items it accepts at their position. *)
Lemma matching_spec (f : Fn) (items : list Obj) (i : Z) (o : Obj) :
  In o (Xrm.matching f i items) <->
  exists k : nat, items !! k = Some o /\ fn_match f o (i + Z.of_nat k) = true.
Proof.
  revert i. induction items as [|a items IH]; intros i; simpl.
  - split; [tauto|]. intros [k [H _]]. destruct k; discriminate.
  - split.
    + destruct (fn_match f a i) eqn:E.
      * intros [->|H].
        -- exists 0%nat. simpl. rewrite Z.add_0_r. auto.
        -- apply IH in H as [k [H1 H2]]. exists (S k). split; [exact H1|].
           rewrite <- H2. f_equal. lia.
      * intros H. apply IH in H as [k [H1 H2]]. exists (S k). split; [exact H1|].
        rewrite <- H2. f_equal. lia.
    + intros [k [H1 H2]]. destruct k as [|k].
      * simpl in H1. injection H1 as ->. rewrite Z.add_0_r in H2. rewrite H2.
        now left.
      * assert (In o (Xrm.matching f (i + 1) items)) as Hin.
        { apply IH. exists k. split; [exact H1|]. rewrite <- H2. f_equal. lia. }
        destruct (fn_match f a i); [now right|exact Hin].
Qed.

(** ** Capability guards *)

Lemma isObject_rejects (v : JsValue) :
  v = JNull \/ typeof v <> "object" -> isObject v = false.
Proof.
  intros [->|H]; [reflexivity|].
  destruct v; simpl in *; try reflexivity; congruence.
Qed.

(** C7. Every capability guard answers [false] for [null] and for every
    value whose [typeof] is not ["object"]. *)
Theorem guards_reject_null_and_non_objects (g : JsValue -> bool) (v : JsValue) :
  In g capability_guards ->
  v = JNull \/ typeof v <> "object" ->
  g v = false.
Proof.
  intros Hg Hv. apply isObject_rejects in Hv.
  unfold capability_guards in Hg. simpl in Hg.
  repeat (destruct Hg as [<-|Hg]);
    try (unfold isAttribute, isTabControl, isControl, isStandardControl,
           isLookupControl, isGridControl, isIframeControl, isKbSearchControl,
           isControlCanSetVisible, isControlCanSetDisabled, isExecutionContext,
           isControl;
         rewrite Hv; reflexivity).
  contradiction.
Qed.

Lemma guards_reject_null_and_non_objects_witness :
  isLookupControl (JString "parentaccountid") = false /\
  isControlCanSetVisible JNull = false.
Proof.
  split.
  - apply (guards_reject_null_and_non_objects isLookupControl (JString "parentaccountid")).
    + simpl. do 4 right. left. reflexivity.
    + right. simpl. discriminate.
  - apply (guards_reject_null_and_non_objects isControlCanSetVisible JNull).
    + simpl. do 8 right. left. reflexivity.
    + left. reflexivity.
Defined.

(** ** Resolution: [getObject] *)

(** The scalar branch hands back what the resolver found when that is an
    item (an object), and [null] when it is [null]. *)
Lemma getObject_scalar (input : JsValue) (resolver resolverAll : JsValue -> M JsValue)
    (w w' : World) (found : JsValue) :
  scalar_key input = true ->
  resolver input w = (Ret found, w') ->
  getObject input resolver resolverAll w =
  (Ret (if truthy found then found else JNull), w').
Proof.
  intros Hk Hr.
  destruct input; unfold scalar_key in Hk; simpl in Hk; try discriminate; simpl;
    rewrite run_bind, Hr; unfold falsy; destruct (truthy found); reflexivity.
Qed.

(** C3. By name, [getAttribute] and [getControl] answer what the host
    collection answers for that name, [null] included; with no specifier
    they answer [null]. *)
Theorem getObject_by_name_is_single_lookup (self : PrimaryControl) (x : string) (w : World) :
  getAttribute (Some self) (JString x) w =
    (Ret (Xrm.get (Xrm.attributes (formContext self)) (JString x)), w) /\
  getControl (Some self) (JString x) w =
    (Ret (Xrm.get (Xrm.controls (formContext self)) (JString x)), w) /\
  getAttribute (Some self) JUndefined w = (Ret JNull, w) /\
  getControl (Some self) JUndefined w = (Ret JNull, w).
Proof.
  repeat split; try reflexivity.
  - unfold getAttribute.
    erewrite getObject_scalar; [|reflexivity|apply run_ret].
    destruct (get_one_item_or_null (Xrm.attributes (formContext self)) (JString x))
      as [E|[o [E _]]]; [reflexivity| |]; rewrite E; reflexivity.
  - unfold getControl.
    erewrite getObject_scalar; [|reflexivity|apply run_ret].
    destruct (get_one_item_or_null (Xrm.controls (formContext self)) (JString x))
      as [E|[o [E _]]]; [reflexivity| |]; rewrite E; reflexivity.
Qed.

(** The array branch with a resolver that only queries the host. *)
Lemma getObject_array_pure (r : JsValue -> JsValue) (resolverAll : JsValue -> M JsValue)
    (elements : list JsValue) (w : World) :
  getObject (JArray elements) (fun input => mret (r input)) resolverAll w =
  (Ret (JArray (List.filter strict_ne_null (map r elements))), w).
Proof.
  simpl. rewrite run_bind, (map_each_pure r). reflexivity.
Qed.

(** What the filter of the array branch leaves: the answers that are not
    [null], each at its place. *)
Lemma filter_not_null_flat_map {A : Type} (r : A -> JsValue) (l : list A) :
  List.filter strict_ne_null (map r l) =
  flat_map (fun x => match r x with JNull => [] | item => [item] end) l.
Proof.
  induction l as [|x l IH]; cbn [map List.filter flat_map].
  - reflexivity.
  - rewrite IH. destruct (r x); reflexivity.
Qed.

Lemma flat_map_no_null {A : Type} (r : A -> JsValue) (l : list A) :
  ~ In JNull (flat_map (fun x => match r x with JNull => [] | item => [item] end) l).
Proof.
  induction l as [|x l IH]; cbn [flat_map].
  - intros [].
  - intros H. apply in_app_or in H as [H|H]; [|exact (IH H)].
    destruct (r x); cbn [In] in H; try contradiction;
      (destruct H as [H|H]; [discriminate H|contradiction]).
Qed.

(** C4. An array specifier is resolved element by element, and no miss
    stops the resolution: the answer holds, in input order, what the
    collection answers for each element, except that an element the
    collection answers [null] for contributes nothing; no [null] is in the
    answer. *)
Theorem getObject_array_keeps_order_drops_null (self : PrimaryControl)
    (elements : list JsValue) (w : World) :
  (exists out,
     getAttribute (Some self) (JArray elements) w = (Ret (JArray out), w) /\
     out = flat_map
             (fun element =>
                match Xrm.get (Xrm.attributes (formContext self)) element with
                | JNull => []
                | item => [item]
                end) elements /\
     ~ In JNull out) /\
  (exists out,
     getControl (Some self) (JArray elements) w = (Ret (JArray out), w) /\
     out = flat_map
             (fun element =>
                match Xrm.get (Xrm.controls (formContext self)) element with
                | JNull => []
                | item => [item]
                end) elements /\
     ~ In JNull out).
Proof.
  split.
  - eexists. split; [|split; [reflexivity|apply flat_map_no_null]].
    unfold getAttribute.
    rewrite (getObject_array_pure (Xrm.get (Xrm.attributes (formContext self)))).
    rewrite filter_not_null_flat_map. reflexivity.
  - eexists. split; [|split; [reflexivity|apply flat_map_no_null]].
    unfold getControl.
    rewrite (getObject_array_pure (Xrm.get (Xrm.controls (formContext self)))).
    rewrite filter_not_null_flat_map. reflexivity.
Qed.

Lemma getObject_array_keeps_order_drops_null_witness :
  getAttribute (Some (mkPrimaryControl (Xrm.mkForm [Sample.firstname] [])))
    (JArray [JString "missing"; JString "firstname"]) Sample.world =
    (Ret (JArray [JObject Sample.firstname]), Sample.world) /\
  getControl (Some Sample.helper)
    (JArray [JString "parentaccountid"; JString "ghost"; JNumber 0; JNumber 9])
    Sample.world =
    (Ret (JArray [JObject Sample.parentaccountid; JObject Sample.mobilephone]),
     Sample.world).
Proof.
  split.
  - destruct (proj1 (getObject_array_keeps_order_drops_null
                       (mkPrimaryControl (Xrm.mkForm [Sample.firstname] []))
                       [JString "missing"; JString "firstname"] Sample.world))
      as [out [E [Hout _]]].
    rewrite E, Hout. reflexivity.
  - destruct (proj2 (getObject_array_keeps_order_drops_null Sample.helper
                       [JString "parentaccountid"; JString "ghost"; JNumber 0; JNumber 9]
                       Sample.world))
      as [out [E [Hout _]]].
    rewrite E, Hout. reflexivity.
Defined.

(** The scenario of the claim: [["missing", "present"]] over a collection
    that holds only ["present"]. *)
Example getObject_missing_then_present (present : Obj) (w : World) :
  oname present = "present" ->
  getAttribute (Some (mkPrimaryControl (Xrm.mkForm [present] [])))
    (JArray [JString "missing"; JString "present"]) w =
  (Ret (JArray [JObject present]), w).
Proof.
  intros Hn. unfold getAttribute.
  rewrite (getObject_array_pure (Xrm.get [present])).
  simpl. rewrite Hn. reflexivity.
Qed.

(** ** Handler attachment: [addHandler] *)

Lemma called_nil (w : World) : called w [] = w.
Proof. destruct w. unfold called. simpl. rewrite app_nil_r. reflexivity. Qed.

(** C5. On a name or an index, [addHandler] asks [get] once.  When the
    answer is an item, the outcome is that of [apply] on this item, run
    once, and nothing is reported; when there is none, [apply] is not run
    and the sink receives one message, made of the operation name and the
    key. *)
Theorem addHandler_scalar_attach_or_warn
    (key : JsValue) (get getDelegate : JsValue -> M JsValue)
    (apply : JsValue -> M unit) (isValid : JsValue -> bool)
    (addHandlerName : string) (w w' : World) (item : JsValue) :
  scalar_key key = true ->
  get key w = (Ret item, w') ->
  addHandler key get getDelegate apply isValid addHandlerName w =
  if truthy item then apply item w'
  else
    (Ret tt,
     warned w'
       [JString ("[PrimaryControl - Warning] " +:+ addHandlerName
                 +:+ ": Attribute " +:+ dquote +:+ to_text key +:+ dquote
                 +:+ " not found.")]).
Proof.
  intros Hk Hg.
  destruct key; unfold scalar_key in Hk; simpl in Hk; try discriminate; simpl;
    rewrite run_bind, Hg; destruct (truthy item); reflexivity.
Qed.

Lemma addHandler_scalar_attach_or_warn_witness :
  addOnChange Sample.helper (JString "ghost") Sample.handler Sample.world =
    (Ret tt,
     warned Sample.world
       [JString ("[PrimaryControl - Warning] addOnChange: Attribute "
                 +:+ dquote +:+ "ghost" +:+ dquote +:+ " not found.")]) /\
  addOnChange Sample.helper (JNumber 1) Sample.handler Sample.world =
    (Ret tt, called Sample.world [HostCall Sample.creditlimit "addOnChange" Sample.handler]) /\
  addOnChange Sample.helper (JNumber 7) Sample.handler Sample.world =
    (Ret tt,
     warned Sample.world
       [JString ("[PrimaryControl - Warning] addOnChange: Attribute "
                 +:+ dquote +:+ "7" +:+ dquote +:+ " not found.")]) /\
  addHandler (JNumber (10 ^ 21)) (fun _ => mret JNull) (fun _ => mret (JArray []))
    (fun attribute => Xrm.invoke attribute "addOnChange" Sample.handler ;; mret tt)
    isAttribute "addOnChange" Sample.world =
    (Ret tt,
     warned Sample.world
       [JString ("[PrimaryControl - Warning] addOnChange: Attribute "
                 +:+ dquote +:+ "1e+21" +:+ dquote +:+ " not found.")]).
Proof.
  split; [|split; [|split]].
  - unfold addOnChange.
    rewrite (addHandler_scalar_attach_or_warn (JString "ghost") _ _ _ _ _
               Sample.world Sample.world JNull); reflexivity.
  - unfold addOnChange.
    rewrite (addHandler_scalar_attach_or_warn (JNumber 1) _ _ _ _ _
               Sample.world Sample.world (JObject Sample.creditlimit)); reflexivity.
  - unfold addOnChange.
    rewrite (addHandler_scalar_attach_or_warn (JNumber 7) _ _ _ _ _
               Sample.world Sample.world JNull); reflexivity.
  - rewrite (addHandler_scalar_attach_or_warn (JNumber (10 ^ 21)) _ _ _ _ _
               Sample.world Sample.world JNull); [|reflexivity|reflexivity].
    vm_compute. reflexivity.
Defined.

(** [addOnChange] on a name or an index, read on the trace. *)
Lemma addOnChange_by_key (self : PrimaryControl) (key handler : JsValue) (w : World) :
  scalar_key key = true ->
  (Xrm.get (Xrm.attributes (formContext self)) key = JNull ->
   addOnChange self key handler w =
     (Ret tt,
      warned w
        [JString ("[PrimaryControl - Warning] addOnChange: Attribute "
                  +:+ dquote +:+ to_text key +:+ dquote +:+ " not found.")])) /\
  (forall o,
     Xrm.get (Xrm.attributes (formContext self)) key = JObject o ->
     has_method (JObject o) "addOnChange" = true ->
     addOnChange self key handler w =
       (Ret tt, called w [HostCall o "addOnChange" handler])).
Proof.
  intros Hk.
  assert (forall found,
            Xrm.get (Xrm.attributes (formContext self)) key = found ->
            getAttribute (Some self) key w =
            (Ret (if truthy found then found else JNull), w)) as Hget.
  { intros found <-. unfold getAttribute.
    apply getObject_scalar; [exact Hk|reflexivity]. }
  split.
  - intros E. specialize (Hget JNull E). unfold addOnChange.
    destruct key; unfold scalar_key in Hk; simpl in Hk; try discriminate;
      cbn [addHandler]; rewrite run_bind, Hget; reflexivity.
  - intros o E Hm. specialize (Hget (JObject o) E). unfold addOnChange.
    destruct key; unfold scalar_key in Hk; simpl in Hk; try discriminate;
      cbn [addHandler]; rewrite run_bind, Hget; cbn [truthy];
      rewrite run_bind; unfold Xrm.invoke; rewrite Hm; reflexivity.
Qed.

(** One host call that attaches or sets a display property: the method is
    there, and it is neither [getValue] nor [setValue]. *)
Lemma invoke_recorded (o : Obj) (method : string) (arg : JsValue) (w : World) :
  has_method (JObject o) method = true ->
  String.eqb method "getValue" = false ->
  String.eqb method "setValue" = false ->
  Xrm.invoke (JObject o) method arg w = (Ret JUndefined, called w [HostCall o method arg]).
Proof.
  intros Hm Hg Hs. unfold Xrm.invoke. rewrite Hm, Hg, Hs. reflexivity.
Qed.

Lemma for_each_invoke_recorded (items : list Obj) (method : string) (arg : JsValue) (w : World) :
  Forall (fun o => has_method (JObject o) method = true) items ->
  String.eqb method "getValue" = false ->
  String.eqb method "setValue" = false ->
  for_each (fun item => Xrm.invoke item method arg ;; mret tt) (map JObject items) w =
  (Ret tt, called w (map (fun o => HostCall o method arg) items)).
Proof.
  intros Hall Hg Hs. revert w.
  induction Hall as [|o items Ho Hall IH]; intros w; cbn [for_each map].
  - rewrite called_nil. reflexivity.
  - rewrite run_bind, run_bind, (invoke_recorded o method arg w Ho Hg Hs).
    rewrite run_ret, IH. unfold called. simpl. rewrite <- app_assoc. reflexivity.
Qed.

Lemma matching_incl (f : Fn) (items : list Obj) (i : Z) (o : Obj) :
  In o (Xrm.matching f i items) -> In o items.
Proof.
  intros H. apply matching_spec in H as [k [H _]].
  apply list_elem_of_In. eapply list_elem_of_lookup_2. exact H.
Qed.

(** The predicate branch of the engine: [apply] runs over what
    [getDelegate] answered, in that order. *)
Lemma addHandler_predicate (f : Fn) (get getDelegate : JsValue -> M JsValue)
    (apply : JsValue -> M unit) (isValid : JsValue -> bool)
    (addHandlerName : string) (w w' : World) (items : list JsValue) :
  getDelegate (JFunction f) w = (Ret (JArray items), w') ->
  addHandler (JFunction f) get getDelegate apply isValid addHandlerName w =
  for_each apply items w'.
Proof.
  intros Hd. simpl. rewrite run_bind, Hd. reflexivity.
Qed.



(** ** Direct instances without the capability *)

(** C2 as stated fails for [addHandler]: an object that does not pass the
    guard reaches the last statement of the engine, which reports it. *)
Lemma addHandler_incapable_instance_is_reported :
  ~ (forall (o : Obj) (get getDelegate : JsValue -> M JsValue)
       (apply : JsValue -> M unit) (isValid : JsValue -> bool)
       (addHandlerName : string) (w : World),
        isValid (JObject o) = false ->
        addHandler (JObject o) get getDelegate apply isValid addHandlerName w =
        (Ret tt, w)).
Proof.
  intros H.
  specialize (H Sample.section
                (getAttribute (Some Sample.helper))
                (getAttribute (Some Sample.helper))
                (fun attribute => Xrm.invoke attribute "addOnChange" Sample.handler ;; mret tt)
                isAttribute "addOnChange" Sample.world eq_refl).
  apply (f_equal (fun r => length (log (snd r)))) in H.
  vm_compute in H. discriminate H.
Qed.

(** C2, amended. A direct instance that fails the guard is skipped by both
    engines, without any call of the callbacks; [setToObject] leaves the
    world as it was, [addHandler] reports it once as an unhandled input. *)
Theorem incapable_instance_skipped
    (o : Obj) (value : JsValue)
    (getter getterAll get getDelegate : JsValue -> M JsValue)
    (valueApplier : JsValue -> JsValue -> M unit) (apply : JsValue -> M unit)
    (isValid : JsValue -> bool) (addHandlerName : string) (w : World) :
  isValid (JObject o) = false ->
  setToObject (JObject o) value getter getterAll valueApplier isValid w = (Ret tt, w) /\
  addHandler (JObject o) get getDelegate apply isValid addHandlerName w =
    (Ret tt,
     warned w
       [JString ("[PrimaryControl - Warning] " +:+ addHandlerName
                 +:+ ": Unhandled input type (object)");
        JObject o]).
Proof.
  intros Hv. split; simpl; rewrite Hv; reflexivity.
Qed.

Lemma incapable_instance_skipped_witness :
  isControlCanSetVisible (JObject Sample.section) = false /\
  setVisible Sample.helper (JObject Sample.section) (JBool false) Sample.world =
    (Ret tt, Sample.world) /\
  isLookupControl (JObject Sample.mobilephone) = false /\
  addPreSearch Sample.helper (JObject Sample.mobilephone) Sample.handler Sample.world =
    (Ret tt,
     warned Sample.world
       [JString "[PrimaryControl - Warning] addPreSearch: Unhandled input type (object)";
        JObject Sample.mobilephone]).
Proof.
  split; [reflexivity|]. split; [|split; [reflexivity|]].
  - unfold setVisible. cbn [falsy truthy negb].
    apply (incapable_instance_skipped Sample.section (JBool false)
             (getControl None) (getControl None) (getControl None) (getControl None)
             _ (fun _ => mret tt) isControlCanSetVisible "setVisible" Sample.world).
    reflexivity.
  - unfold addPreSearch.
    apply (incapable_instance_skipped Sample.mobilephone JUndefined
             (getControl None) (getControl None) _ _
             (fun _ _ => mret tt) _ isLookupControl "addPreSearch" Sample.world).
    reflexivity.
Defined.

(** ** Reading values: [getAttributeValue] *)

(** The callback of [map] may depend on the world as long as it leaves it
    alone on the elements of the list. *)
Lemma map_each_query {A : Type} (f : A -> M JsValue) (r : A -> JsValue)
    (l : list A) (w : World) :
  (forall x, In x l -> f x w = (Ret (r x), w)) ->
  map_each f l w = (Ret (map r l), w).
Proof.
  induction l as [|x l IH]; intros H; cbn [map_each map].
  - reflexivity.
  - rewrite run_bind, (H x (or_introl eq_refl)), run_bind, IH.
    + reflexivity.
    + intros y Hy. apply H. now right.
Qed.

(** What the scalar resolver of [getAttributeValue] computes for a key. *)
Lemma getAttributeValue_resolver (items : list Obj) (key : JsValue) (w : World) :
  scalar_key key = true ->
  Forall (fun a => has_method (JObject a) "getValue" = true) items ->
  (v ← optional_getValue (Xrm.get items key); mret (nullish v JNull)) w =
  (Ret (match Xrm.get items key with
        | JObject o => nullish (default JNull (vals w !! oid o)) JNull
        | _ => JNull
        end), w).
Proof.
  intros Hk Hall.
  destruct (get_one_item_or_null items key Hk) as [E|[o [E Hin]]]; rewrite E.
  - reflexivity.
  - rewrite Forall_forall in Hall. apply list_elem_of_In, Hall in Hin.
    rewrite run_bind. unfold optional_getValue, Xrm.invoke. rewrite Hin.
    reflexivity.
Qed.

(** C9. An attribute that holds [0], the empty string or [false]: asked
    by its name or index, [getAttributeValue] answers [null]; asked by an
    array of names and indexes that has this key, it answers a sequence that
    has the value itself.  That sequence is, in array order, the stored
    value of every key, without those that are [null] (no attribute, or an
    empty one) and without anything else removed: no [null] is in it. *)
Theorem getAttributeValue_falsy_value
    (self : PrimaryControl) (key : JsValue) (o : Obj) (v : JsValue)
    (keys : list JsValue) (w : World) :
  scalar_key key = true ->
  Xrm.get (Xrm.attributes (formContext self)) key = JObject o ->
  Forall (fun a => has_method (JObject a) "getValue" = true)
    (Xrm.attributes (formContext self)) ->
  vals w !! oid o = Some v ->
  v = JNumber 0 \/ v = JString EmptyString \/ v = JBool false ->
  Forall (fun k => scalar_key k = true) keys ->
  In key keys ->
  let stored := fun k =>
    match Xrm.get (Xrm.attributes (formContext self)) k with
    | JObject a =>
        match vals w !! oid a with
        | Some JUndefined | Some JNull | None => JNull
        | Some value => value
        end
    | _ => JNull
    end in
  fst (getAttributeValue self key w) = Ret JNull /\
  getAttributeValue self (JArray [key]) w = (Ret (JArray [v]), w) /\
  exists values,
    getAttributeValue self (JArray keys) w = (Ret (JArray values), w) /\
    In v values /\
    values = flat_map (fun k => match stored k with JNull => [] | value => [value] end)
               keys /\
    ~ In JNull values.
Proof.
  intros Hk Hget Hall Hval Hv Hkeys Hin stored.
  set (items := Xrm.attributes (formContext self)) in *.
  set (read := fun k => match Xrm.get items k with
                        | JObject a => nullish (default JNull (vals w !! oid a)) JNull
                        | _ => JNull
                        end).
  assert (forall k, read k = stored k) as Hsame.
  { intros k. unfold read, stored.
    destruct (Xrm.get items k); try reflexivity.
    destruct (vals w !! oid o0) as [[]|]; reflexivity. }
  assert (read key = v) as Hread.
  { unfold read. rewrite Hget, Hval. simpl.
    destruct Hv as [->|[->| ->]]; reflexivity. }
  assert (strict_ne_null v = true) as Hnn.
  { destruct Hv as [->|[->| ->]]; reflexivity. }
  assert (truthy v = false) as Hf.
  { destruct Hv as [->|[->| ->]]; reflexivity. }
  assert (forall l, Forall (fun k => scalar_key k = true) l ->
            getAttributeValue self (JArray l) w =
            (Ret (JArray (List.filter strict_ne_null (map read l))), w)) as Harr.
  { intros l Hl. unfold getAttributeValue. cbn [falsy truthy negb getObject].
    rewrite run_bind.
    rewrite (map_each_query _ read l w); [reflexivity|].
    intros k Hkl. rewrite Forall_forall in Hl.
    apply list_elem_of_In, Hl in Hkl.
    apply (getAttributeValue_resolver items k w Hkl Hall). }
  split; [|split].
  - unfold getAttributeValue. destruct (falsy key) eqn:Hn; [reflexivity|].
    erewrite getObject_scalar;
      [|exact Hk|apply (getAttributeValue_resolver items key w Hk Hall)].
    fold (read key). rewrite Hread, Hf. reflexivity.
  - rewrite (Harr [key]); [|repeat constructor; exact Hk].
    simpl. rewrite Hread, Hnn. reflexivity.
  - eexists. split; [apply (Harr keys Hkeys)|]. split; [|split].
    + apply filter_In. split; [|exact Hnn].
      rewrite <- Hread. apply in_map. exact Hin.
    + rewrite filter_not_null_flat_map. clear -Hsame.
      induction keys as [|k keys IH]; cbn [flat_map]; [reflexivity|].
      rewrite IH, Hsame. reflexivity.
    + rewrite filter_not_null_flat_map. apply flat_map_no_null.
Qed.

Lemma getAttributeValue_falsy_value_witness :
  fst (getAttributeValue Sample.helper (JString "creditlimit") Sample.world) = Ret JNull /\
  getAttributeValue Sample.helper (JArray [JString "creditlimit"]) Sample.world =
    (Ret (JArray [JNumber 0]), Sample.world) /\
  getAttributeValue Sample.helper
    (JArray [JString "firstname"; JString "ghost"; JString "creditlimit"]) Sample.world =
    (Ret (JArray [JString "Ann"; JNumber 0]), Sample.world) /\
  getAttributeValue
    (mkPrimaryControl
       (Xrm.mkForm [Sample.firstname; Sample.creditlimit;
                    mkObj 8 "nickname" Sample.attribute_methods] []))
    (JArray [JString "nickname"; JNumber 1; JString "firstname"]) Sample.world =
    (Ret (JArray [JNumber 0; JString "Ann"]), Sample.world).
Proof.
  assert (Forall (fun a => has_method (JObject a) "getValue" = true)
            (Xrm.attributes (formContext Sample.helper))) as Hall.
  { simpl. repeat constructor. }
  assert (Forall (fun a => has_method (JObject a) "getValue" = true)
            [Sample.firstname; Sample.creditlimit;
             mkObj 8 "nickname" Sample.attribute_methods]) as Hall'.
  { repeat constructor. }
  assert (Forall (fun k => scalar_key k = true)
            [JString "firstname"; JString "ghost"; JString "creditlimit"]) as Hkeys.
  { repeat constructor. }
  assert (Forall (fun k => scalar_key k = true)
            [JString "nickname"; JNumber 1; JString "firstname"]) as Hkeys'.
  { repeat constructor. }
  destruct (getAttributeValue_falsy_value Sample.helper (JString "creditlimit")
              Sample.creditlimit (JNumber 0)
              [JString "firstname"; JString "ghost"; JString "creditlimit"] Sample.world
              eq_refl eq_refl Hall eq_refl (or_introl eq_refl) Hkeys
              (or_intror (or_intror (or_introl eq_refl))))
    as [H1 [H2 [values [E [_ [Hvalues _]]]]]].
  destruct (getAttributeValue_falsy_value
              (mkPrimaryControl
                 (Xrm.mkForm [Sample.firstname; Sample.creditlimit;
                              mkObj 8 "nickname" Sample.attribute_methods] []))
              (JNumber 1) Sample.creditlimit (JNumber 0)
              [JString "nickname"; JNumber 1; JString "firstname"] Sample.world
              eq_refl eq_refl Hall' eq_refl (or_introl eq_refl) Hkeys'
              (or_intror (or_introl eq_refl)))
    as [_ [_ [values' [E' [_ [Hvalues' _]]]]]].
  split; [exact H1|]. split; [exact H2|]. split.
  - rewrite E, Hvalues. reflexivity.
  - rewrite E', Hvalues'. reflexivity.
Defined.

(** ** The falsy-input guard of the public operations *)



(** ** Writing values: [setToObject] *)

(** The scalar branch: the applier runs when the getter found nothing. *)
Lemma setToObject_scalar (key value : JsValue) (getter getterAll : JsValue -> M JsValue)
    (valueApplier : JsValue -> JsValue -> M unit) (isValid : JsValue -> bool)
    (w w' : World) (component : JsValue) :
  scalar_key key = true ->
  getter key w = (Ret component, w') ->
  setToObject key value getter getterAll valueApplier isValid w =
  if truthy component then (Ret tt, w') else valueApplier component value w'.
Proof.
  intros Hk Hg.
  destruct key; unfold scalar_key in Hk; simpl in Hk; try discriminate; simpl;
    rewrite run_bind, Hg; unfold falsy; destruct (truthy component); reflexivity.
Qed.

(** Whatever the applier, a key the getter resolves to an item is left
    unwritten. *)
Lemma setToObject_resolved_key_not_applied (key value : JsValue)
    (getter getterAll : JsValue -> M JsValue)
    (valueApplier : JsValue -> JsValue -> M unit) (isValid : JsValue -> bool)
    (w w' : World) (o : Obj) :
  scalar_key key = true ->
  getter key w = (Ret (JObject o), w') ->
  setToObject key value getter getterAll valueApplier isValid w = (Ret tt, w').
Proof.
  intros Hk Hg. rewrite (setToObject_scalar key value _ _ _ _ w w' (JObject o) Hk Hg).
  reflexivity.
Qed.

(** The getter the writers pass is detached from its instance. *)
Lemma detached_getter_throws (input : JsValue) (w : World) :
  getAttribute None input w =
    (Throw (TypeError (PropertyOfUndefined "getObject")), w) /\
  getControl None input w =
    (Throw (TypeError (PropertyOfUndefined "getObject")), w).
Proof. split; reflexivity. Qed.

(** C1, on the code. ["firstname"] is an attribute of the form, and
    [setAttributeValue("firstname", "John")] ends in a [TypeError] with no
    call of [setValue]; with the getter bound to the instance the call
    returns, still with no call of [setValue]. *)
Theorem setAttributeValue_resolved_name_is_not_written :
  Xrm.get (Xrm.attributes (formContext Sample.helper)) (JString "firstname") =
    JObject Sample.firstname /\
  setAttributeValue Sample.helper (JString "firstname") (JString "John") Sample.world =
    (Throw (TypeError (PropertyOfUndefined "getObject")),
     Sample.world) /\
  setToObject (JString "firstname") (JString "John")
    (getAttribute (Some Sample.helper)) (getAttribute (Some Sample.helper))
    (fun input value => Xrm.invoke input "setValue" value ;; mret tt)
    isAttribute Sample.world =
    (Ret tt, Sample.world) /\
  setAttributeValue Sample.helper (JObject Sample.firstname) (JString "John") Sample.world =
    (Ret tt,
     {| vals := <[1%nat := JString "John"]> (vals Sample.world);
        log := [HostCall Sample.firstname "setValue" (JString "John")] |}).
Proof. repeat split; reflexivity. Qed.

(** C8, on the code. [setAttributeValue("ghost", "X")] on a form without
    ["ghost"] throws, as written and also with the getter bound to the
    instance: there the applier is run on [null]. *)
Theorem setToObject_unresolved_name_throws :
  Xrm.get (Xrm.attributes (formContext Sample.helper)) (JString "ghost") = JNull /\
  setAttributeValue Sample.helper (JString "ghost") (JString "X") Sample.world =
    (Throw (TypeError (PropertyOfUndefined "getObject")),
     Sample.world) /\
  setToObject (JString "ghost") (JString "X")
    (getAttribute (Some Sample.helper)) (getAttribute (Some Sample.helper))
    (fun input value => Xrm.invoke input "setValue" value ;; mret tt)
    isAttribute Sample.world =
    (Throw (TypeError (PropertyOfNull "setValue")), Sample.world).
Proof. repeat split; reflexivity. Qed.

(** ** The factory and the engines that do not throw *)

(** [Provider.from] throws on a falsy context and on nothing else, and
    builds the wrapper the guard selects. *)
Lemma Provider_from_spec (getFormContext : Obj -> JsValue) (context : JsValue) :
  (truthy context = false ->
   Provider.from getFormContext context =
   Throw (Error ("[D365 Form Scripting Framework - Provider] Invalid context provided. Provided context: "
                 +:+ to_text context))) /\
  (truthy context = true -> isExecutionContext context = true ->
   exists o, context = JObject o /\
     Provider.from getFormContext context =
     Ret (Provider.NewFormContext context (getFormContext o))) /\
  (truthy context = true -> isExecutionContext context = false ->
   Provider.from getFormContext context = Ret (Provider.NewPrimaryControl context)).
Proof.
  unfold Provider.from. repeat split.
  - intros ->. reflexivity.
  - intros -> He. rewrite He.
    destruct context; try discriminate He. exists o. split; reflexivity.
  - intros -> ->. reflexivity.
Qed.

Lemma returns_bind {A B : Type} (c : M A) (k : A -> M B) :
  returns c -> (forall a, returns (k a)) -> returns (c ≫= k).
Proof.
  intros Hc Hk w. destruct (Hc w) as [a [w1 E]].
  rewrite run_bind, E. apply Hk.
Qed.

Lemma returns_ret {A : Type} (a : A) : returns (mret a : M A).
Proof. intros w. exists a, w. reflexivity. Qed.

Lemma returns_warn (data : list JsValue) : returns (warnMessage data).
Proof. intros w. eexists. eexists. reflexivity. Qed.

Lemma returns_for_each {A : Type} (body : A -> M unit) (l : list A) :
  Forall (fun x => returns (body x)) l -> returns (for_each body l).
Proof.
  induction 1 as [|x l Hx _ IH]; cbn [for_each].
  - apply returns_ret.
  - apply returns_bind; [exact Hx|]. intros _. exact IH.
Qed.

Lemma returns_map_each {A : Type} (f : A -> M JsValue) (l : list A) :
  (forall x, returns (f x)) -> returns (map_each f l).
Proof.
  intros Hf. induction l as [|x l IH]; cbn [map_each].
  - apply returns_ret.
  - apply returns_bind; [apply Hf|]. intros y.
    apply returns_bind; [exact IH|]. intros ys. apply returns_ret.
Qed.

Example Provider_from_samples (getFormContext : Obj -> JsValue) :
  Provider.from getFormContext (JObject Sample.executionContext) =
    Ret (Provider.NewFormContext (JObject Sample.executionContext)
           (getFormContext Sample.executionContext)) /\
  Provider.from getFormContext (JObject Sample.section) =
    Ret (Provider.NewPrimaryControl (JObject Sample.section)) /\
  Provider.from getFormContext (JNumber 7) =
    Ret (Provider.NewPrimaryControl (JNumber 7)) /\
  Provider.from getFormContext JUndefined =
    Throw (Error "[D365 Form Scripting Framework - Provider] Invalid context provided. Provided context: undefined") /\
  Provider.from getFormContext (JNumber 0) =
    Throw (Error "[D365 Form Scripting Framework - Provider] Invalid context provided. Provided context: 0").
Proof. repeat split; reflexivity. Qed.

(** [getObject] returns on every specifier when its resolvers return. *)
Lemma getObject_returns (input : JsValue) (resolver resolverAll : JsValue -> M JsValue) :
  (forall i, returns (resolver i)) ->
  (forall i, returns (resolverAll i)) ->
  returns (getObject input resolver resolverAll).
Proof.
  intros Hr Ha. destruct input; cbn [getObject];
    try apply Ha; try apply returns_ret.
  - apply returns_bind; [apply Hr|]. intros c. destruct (falsy c); apply returns_ret.
  - apply returns_bind; [apply Hr|]. intros c. destruct (falsy c); apply returns_ret.
  - apply returns_bind; [apply returns_map_each; exact Hr|]. intros ys. apply returns_ret.
Qed.

(** [addHandler] returns on every specifier, nested arrays included, when
    its callbacks return and [getDelegate] answers arrays. *)
Lemma addHandler_returns (input : JsValue) (get getDelegate : JsValue -> M JsValue)
    (apply : JsValue -> M unit) (isValid : JsValue -> bool) (addHandlerName : string) :
  (forall i, returns (get i)) ->
  (forall i w, exists l w', getDelegate i w = (Ret (JArray l), w')) ->
  (forall i, returns (apply i)) ->
  returns (addHandler input get getDelegate apply isValid addHandlerName).
Proof.
  intros Hg Hd Ha.
  induction input as [| | | | | | |items IH] using JsValue_nested_ind;
    cbn [addHandler].
  - apply returns_warn.
  - destruct (isValid JNull); [apply Ha|apply returns_warn].
  - destruct (isValid (JBool b)); [apply Ha|apply returns_warn].
  - apply returns_bind; [apply Hg|]. intros item.
    destruct (truthy item); [apply Ha|apply returns_warn].
  - apply returns_bind; [apply Hg|]. intros item.
    destruct (truthy item); [apply Ha|apply returns_warn].
  - intros w. destruct (Hd (JFunction f) w) as [l [w1 E]].
    rewrite run_bind, E, run_bind. cbn [iterate]. rewrite run_ret.
    apply returns_for_each. apply Forall_forall. intros x _. apply Ha.
  - destruct (isValid (JObject o)); [apply Ha|apply returns_warn].
  - apply returns_for_each. exact IH.
Qed.

(** * Further properties of the engines and of the operations built on them *)

(** ** Loops *)

Lemma for_each_app {A : Type} (body : A -> M unit) (l1 l2 : list A) (w : World) :
  for_each body (l1 ++ l2) w = (for_each body l1 ;; for_each body l2) w.
Proof.
  revert w. induction l1 as [|x l1 IH]; intros w.
  - reflexivity.
  - cbn [for_each app]. rewrite !run_bind.
    destruct (body x w) as [[[]|e] w1]; [|reflexivity].
    rewrite IH, run_bind. reflexivity.
Qed.

Lemma then_ret_tt (c : M unit) (w : World) : (c ;; mret tt) w = c w.
Proof.
  rewrite run_bind. destruct (c w) as [[[]|e] w1]; reflexivity.
Qed.

(** ** The writers on names, indexes and predicates *)

(** Every writer hands the detached getter to [setToObject]; on a name, an
    index or a predicate the engine calls it first, so the operation ends in
    a [TypeError] before any host call. *)
Theorem writers_throw_on_key_or_predicate
    (self : PrimaryControl) (input value : JsValue) (w : World) :
  falsy input = false ->
  scalar_key input = true \/ typeof input = "function" ->
  setAttributeValue self input value w =
    (Throw (TypeError (PropertyOfUndefined "getObject")), w) /\
  setRequiredLevel self input value w =
    (Throw (TypeError (PropertyOfUndefined "getObject")), w) /\
  setOptional self input w =
    (Throw (TypeError (PropertyOfUndefined "getObject")), w) /\
  setRecommended self input w =
    (Throw (TypeError (PropertyOfUndefined "getObject")), w) /\
  setMandatory self input w =
    (Throw (TypeError (PropertyOfUndefined "getObject")), w) /\
  setVisible self input value w =
    (Throw (TypeError (PropertyOfUndefined "getObject")), w) /\
  setDisabled self input value w =
    (Throw (TypeError (PropertyOfUndefined "getObject")), w).
Proof.
  intros Hf Hshape.
  unfold setAttributeValue, setRequiredLevel, setOptional, setRecommended,
    setMandatory, setVisible, setDisabled.
  rewrite Hf.
  destruct input; unfold scalar_key in Hshape; simpl in Hshape;
    try (destruct Hshape; discriminate);
    repeat split; reflexivity.
Qed.

Lemma writers_throw_on_key_or_predicate_witness :
  setVisible Sample.helper (JString "mobilephone") (JBool false) Sample.world =
    (Throw (TypeError (PropertyOfUndefined "getObject")), Sample.world) /\
  setMandatory Sample.helper (JFunction Sample.credit_only) Sample.world =
    (Throw (TypeError (PropertyOfUndefined "getObject")), Sample.world).
Proof.
  split.
  - apply (writers_throw_on_key_or_predicate Sample.helper (JString "mobilephone")
             (JBool false) Sample.world).
    + reflexivity.
    + left. reflexivity.
  - apply (writers_throw_on_key_or_predicate Sample.helper (JFunction Sample.credit_only)
             JUndefined Sample.world).
    + reflexivity.
    + right. reflexivity.
Defined.

(** ** The writers on direct instances *)

(** What [setAttributeValue] does with an attribute passed as such. *)
Lemma setAttributeValue_instance (self : PrimaryControl) (o : Obj) (v : JsValue) (w : World) :
  isAttribute (JObject o) = true ->
  has_method (JObject o) "setValue" = true ->
  setAttributeValue self (JObject o) v w =
  (Ret tt, {| vals := <[oid o := v]> (vals w);
              log := log w ++ [HostCall o "setValue" v] |}).
Proof.
  intros Ha Hs. unfold setAttributeValue. cbn [falsy truthy negb setToObject].
  rewrite Ha, run_bind. unfold Xrm.invoke. rewrite Hs. reflexivity.
Qed.

(** What the scalar resolver of [getAttributeValue] answers for a key that
    resolves to an attribute. *)
Lemma getAttributeValue_found (self : PrimaryControl) (key : JsValue) (o : Obj) (w : World) :
  scalar_key key = true ->
  falsy key = false ->
  Xrm.get (Xrm.attributes (formContext self)) key = JObject o ->
  has_method (JObject o) "getValue" = true ->
  getAttributeValue self key w =
  (Ret (if truthy (default JNull (vals w !! oid o))
        then default JNull (vals w !! oid o) else JNull), w).
Proof.
  intros Hk Hf Hget Hm. unfold getAttributeValue. rewrite Hf.
  erewrite getObject_scalar; [|exact Hk|].
  2:{ rewrite Hget, run_bind. unfold optional_getValue, Xrm.invoke.
      rewrite Hm. cbn [String.eqb Ascii.eqb Bool.eqb]. rewrite run_ret. reflexivity. }
  destruct (default JNull (vals w !! oid o)); reflexivity.
Qed.



(** Writing the same value twice through the attribute stores what one
    write stores; the host is called twice. *)
Theorem setAttributeValue_instance_twice
    (self : PrimaryControl) (o : Obj) (v : JsValue) (w : World) :
  isAttribute (JObject o) = true ->
  has_method (JObject o) "setValue" = true ->
  exists w1 w2,
    setAttributeValue self (JObject o) v w = (Ret tt, w1) /\
    setAttributeValue self (JObject o) v w1 = (Ret tt, w2) /\
    vals w2 = vals w1 /\
    log w2 = log w ++ [HostCall o "setValue" v; HostCall o "setValue" v].
Proof.
  intros Ha Hs. eexists. eexists.
  split; [apply (setAttributeValue_instance self o v w Ha Hs)|].
  split; [apply (setAttributeValue_instance self o v _ Ha Hs)|].
  cbn [vals log]. split.
  - apply insert_insert_eq.
  - rewrite <- app_assoc. reflexivity.
Qed.

Lemma setAttributeValue_instance_twice_witness :
  exists w1 w2,
    setAttributeValue Sample.helper (JObject Sample.creditlimit) (JNumber 500) Sample.world =
      (Ret tt, w1) /\
    setAttributeValue Sample.helper (JObject Sample.creditlimit) (JNumber 500) w1 =
      (Ret tt, w2) /\
    vals w2 = vals w1 /\
    log w2 = log Sample.world ++
             [HostCall Sample.creditlimit "setValue" (JNumber 500);
              HostCall Sample.creditlimit "setValue" (JNumber 500)].
Proof.
  apply (setAttributeValue_instance_twice Sample.helper Sample.creditlimit (JNumber 500)
           Sample.world); reflexivity.
Defined.

(** [setToObject] over an array of objects, for an applier that is one
    recorded host call guarded by [isValid]. *)
Lemma setToObject_instances (objs : list Obj) (value : JsValue)
    (getter getterAll : JsValue -> M JsValue) (isValid : JsValue -> bool)
    (method : string) (w : World) :
  (forall o, isValid (JObject o) = true -> has_method (JObject o) method = true) ->
  String.eqb method "getValue" = false ->
  String.eqb method "setValue" = false ->
  for_each
    (fun component =>
       setToObject component value getter getterAll
         (fun control value => Xrm.invoke control method value ;; mret tt) isValid)
    (map JObject objs) w =
  (Ret tt,
   called w (map (fun o => HostCall o method value)
               (List.filter (fun o => isValid (JObject o)) objs))).
Proof.
  intros Hcap Hg Hs. revert w.
  induction objs as [|o objs IH]; intros w; cbn [map for_each List.filter].
  - rewrite called_nil. reflexivity.
  - rewrite run_bind. cbn [setToObject].
    destruct (isValid (JObject o)) eqn:Hv.
    + rewrite run_bind, (invoke_recorded o method value w (Hcap o Hv) Hg Hs), run_ret.
      rewrite IH. unfold called. cbn [vals log map]. rewrite <- app_assoc. reflexivity.
    + rewrite run_ret. apply IH.
Qed.

(** [setVisible] and [setDisabled] over an array of objects call the host on
    those that pass the guard, in array order, and pass over the others in
    silence. *)
Theorem setVisible_setDisabled_on_instances
    (self : PrimaryControl) (objs : list Obj) (flag : JsValue) (w : World) :
  setVisible self (JArray (map JObject objs)) flag w =
    (Ret tt,
     called w (map (fun o => HostCall o "setVisible" flag)
                 (List.filter (fun o => isControlCanSetVisible (JObject o)) objs))) /\
  setDisabled self (JArray (map JObject objs)) flag w =
    (Ret tt,
     called w (map (fun o => HostCall o "setDisabled" flag)
                 (List.filter (fun o => isControlCanSetDisabled (JObject o)) objs))).
Proof.
  split.
  - unfold setVisible. cbn [falsy truthy negb setToObject].
    apply setToObject_instances; [|reflexivity|reflexivity].
    intros o H. unfold isControlCanSetVisible in H.
    apply andb_prop in H. tauto.
  - unfold setDisabled. cbn [falsy truthy negb setToObject].
    apply setToObject_instances; [|reflexivity|reflexivity].
    intros o H. unfold isControlCanSetDisabled in H.
    apply andb_prop in H. tauto.
Qed.

Example setVisible_mixed_array :
  setVisible Sample.helper
    (JArray [JObject Sample.mobilephone; JObject Sample.section;
             JObject Sample.parentaccountid]) (JBool false) Sample.world =
  (Ret tt,
   called Sample.world
     [HostCall Sample.mobilephone "setVisible" (JBool false);
      HostCall Sample.parentaccountid "setVisible" (JBool false)]).
Proof. reflexivity. Qed.

(** ** Handler attachment over arrays *)

(** [addOnChange] over an array of names and indexes treats the elements
    one after the other, in array order: a host [addOnChange] on the
    attribute found, a not-found report for a key without one; a miss does
    not stop the elements that follow. *)
Theorem addOnChange_over_keys
    (self : PrimaryControl) (keys : list JsValue) (handler : JsValue) (w : World) :
  Forall (fun k => scalar_key k = true) keys ->
  Forall (fun a => has_method (JObject a) "addOnChange" = true)
    (Xrm.attributes (formContext self)) ->
  addOnChange self (JArray keys) handler w =
  (Ret tt,
   called w
     (map (fun key =>
             match Xrm.get (Xrm.attributes (formContext self)) key with
             | JObject o => HostCall o "addOnChange" handler
             | _ =>
                 Warn [JString ("[PrimaryControl - Warning] addOnChange: Attribute "
                                +:+ dquote +:+ to_text key +:+ dquote
                                +:+ " not found.")]
             end) keys)).
Proof.
  intros Hkeys Hall. unfold addOnChange. cbn [addHandler]. revert w.
  induction Hkeys as [|key keys Hk Hkeys IH]; intros w; cbn [for_each map].
  - rewrite called_nil. reflexivity.
  - rewrite run_bind.
    change (addHandler key _ _ _ _ _ w) with (addOnChange self key handler w).
    destruct (addOnChange_by_key self key handler w Hk) as [Hmiss Hhit].
    destruct (get_one_item_or_null (Xrm.attributes (formContext self)) key Hk)
      as [E|[o [E Hin]]].
    + rewrite (Hmiss E), E, IH. unfold called, warned. cbn [vals log].
      rewrite <- app_assoc. reflexivity.
    + rewrite Forall_forall in Hall. apply list_elem_of_In, Hall in Hin.
      rewrite (Hhit o E Hin), E, IH. unfold called. cbn [vals log].
      rewrite <- app_assoc. reflexivity.
Qed.

Lemma addOnChange_over_keys_witness :
  addOnChange Sample.helper
    (JArray [JString "ghost"; JString "firstname"; JNumber 7; JNumber 1])
    Sample.handler Sample.world =
  (Ret tt,
   called Sample.world
     [Warn [JString ("[PrimaryControl - Warning] addOnChange: Attribute "
                     +:+ dquote +:+ "ghost" +:+ dquote +:+ " not found.")];
      HostCall Sample.firstname "addOnChange" Sample.handler;
      Warn [JString ("[PrimaryControl - Warning] addOnChange: Attribute "
                     +:+ dquote +:+ "7" +:+ dquote +:+ " not found.")];
      HostCall Sample.creditlimit "addOnChange" Sample.handler]).
Proof.
  apply (addOnChange_over_keys Sample.helper
           [JString "ghost"; JString "firstname"; JNumber 7; JNumber 1]
           Sample.handler Sample.world).
  - repeat constructor.
  - simpl. repeat constructor.
Defined.

(** The two dispatch engines take an array apart recursively: an array of
    two parts is the first part and then the second, and an array inside an
    array counts as its elements. *)
Theorem dispatch_engines_flatten_arrays
    (l1 l2 : list JsValue) (value : JsValue)
    (getter getterAll get getDelegate : JsValue -> M JsValue)
    (valueApplier : JsValue -> JsValue -> M unit) (apply : JsValue -> M unit)
    (isValid : JsValue -> bool) (addHandlerName : string) (w : World) :
  addHandler (JArray (l1 ++ l2)) get getDelegate apply isValid addHandlerName w =
    (addHandler (JArray l1) get getDelegate apply isValid addHandlerName ;;
     addHandler (JArray l2) get getDelegate apply isValid addHandlerName) w /\
  addHandler (JArray [JArray l1]) get getDelegate apply isValid addHandlerName w =
    addHandler (JArray l1) get getDelegate apply isValid addHandlerName w /\
  setToObject (JArray (l1 ++ l2)) value getter getterAll valueApplier isValid w =
    (setToObject (JArray l1) value getter getterAll valueApplier isValid ;;
     setToObject (JArray l2) value getter getterAll valueApplier isValid) w /\
  setToObject (JArray [JArray l1]) value getter getterAll valueApplier isValid w =
    setToObject (JArray l1) value getter getterAll valueApplier isValid w.
Proof.
  repeat split.
  - cbn [addHandler]. apply for_each_app.
  - cbn [addHandler for_each]. apply then_ret_tt.
  - cbn [setToObject]. apply for_each_app.
  - cbn [setToObject for_each]. apply then_ret_tt.
Qed.

(** ** The bound getters *)

(** Called on the instance, [getAttribute] and [getControl] return for
    every specifier, whatever its shape, and leave the world as it was. *)
Theorem bound_getters_return_and_are_quiet
    (self : PrimaryControl) (input : JsValue) (w : World) :
  (exists v, getAttribute (Some self) input w = (Ret v, w)) /\
  (exists v, getControl (Some self) input w = (Ret v, w)).
Proof.
  split.
  - unfold getAttribute. destruct input;
      try (eexists; reflexivity).
    + eexists. apply getObject_scalar; [reflexivity|apply run_ret].
    + eexists. apply getObject_scalar; [reflexivity|apply run_ret].
    + eexists. apply (getObject_array_pure (Xrm.get (Xrm.attributes (formContext self)))).
  - unfold getControl. destruct input;
      try (eexists; reflexivity).
    + eexists. apply getObject_scalar; [reflexivity|apply run_ret].
    + eexists. apply getObject_scalar; [reflexivity|apply run_ret].
    + eexists. apply (getObject_array_pure (Xrm.get (Xrm.controls (formContext self)))).
Qed.

(** ** Reading values *)

(** With a predicate, [getAttributeValue] answers the stored values of the
    attributes the predicate accepts, one per attribute and in collection
    order; an empty attribute stays in the answer as [null]. *)
Theorem getAttributeValue_by_predicate
    (self : PrimaryControl) (f : Fn) (w : World) :
  Forall (fun a => has_method (JObject a) "getValue" = true)
    (Xrm.attributes (formContext self)) ->
  getAttributeValue self (JFunction f) w =
  (Ret (JArray (map (fun o => default JNull (vals w !! oid o))
                  (Xrm.matching f 0 (Xrm.attributes (formContext self))))), w).
Proof.
  intros Hall. unfold getAttributeValue. cbn [falsy truthy negb getObject Xrm.get].
  rewrite run_bind. cbn [array_method]. rewrite run_ret, run_bind.
  rewrite (map_each_query _
             (fun v => match v with
                       | JObject o => default JNull (vals w !! oid o)
                       | _ => JNull
                       end)).
  - rewrite run_ret, map_map. reflexivity.
  - intros x Hx. apply in_map_iff in Hx as [o [<- Ho]].
    apply matching_incl in Ho.
    rewrite Forall_forall in Hall. apply list_elem_of_In, Hall in Ho.
    unfold Xrm.invoke. rewrite Ho. reflexivity.
Qed.

Lemma getAttributeValue_by_predicate_witness :
  getAttributeValue Sample.helper (JFunction Sample.credit_only) Sample.world =
  (Ret (JArray [JNumber 0]), Sample.world).
Proof.
  apply (getAttributeValue_by_predicate Sample.helper Sample.credit_only Sample.world).
  simpl. repeat constructor.
Defined.

Lemma quiet_ret {A : Type} (a : A) : quiet (mret a : M A).
Proof. intros w. reflexivity. Qed.

Lemma quiet_throw {A : Type} (e : JsError) : quiet (throw e : M A).
Proof. intros w. reflexivity. Qed.

Lemma quiet_bind {A B : Type} (c : M A) (k : A -> M B) :
  quiet c -> (forall a, quiet (k a)) -> quiet (c ≫= k).
Proof.
  intros Hc Hk w. rewrite run_bind. specialize (Hc w).
  destruct (c w) as [[a|e] w1]; cbn [snd] in Hc; subst w1.
  - apply Hk.
  - reflexivity.
Qed.

Lemma quiet_map_each {A : Type} (f : A -> M JsValue) (l : list A) :
  (forall x, quiet (f x)) -> quiet (map_each f l).
Proof.
  intros Hf. induction l as [|x l IH]; cbn [map_each].
  - apply quiet_ret.
  - apply quiet_bind; [apply Hf|]. intros y.
    apply quiet_bind; [exact IH|]. intros ys. apply quiet_ret.
Qed.

Lemma quiet_getValue (a : JsValue) : quiet (Xrm.invoke a "getValue" JUndefined).
Proof.
  destruct a; try apply quiet_throw. unfold Xrm.invoke.
  destruct (has_method (JObject o) "getValue"); [|apply quiet_throw].
  intros w. reflexivity.
Qed.

Lemma quiet_array_method (v : JsValue) (method : string) : quiet (array_method v method).
Proof. destruct v; try apply quiet_throw. apply quiet_ret. Qed.

Lemma quiet_getObject (input : JsValue) (resolver resolverAll : JsValue -> M JsValue) :
  (forall i, quiet (resolver i)) ->
  (forall i, quiet (resolverAll i)) ->
  quiet (getObject input resolver resolverAll).
Proof.
  intros Hr Ha. destruct input; cbn [getObject];
    try apply Ha; try apply quiet_ret.
  - apply quiet_bind; [apply Hr|]. intros c. destruct (falsy c); apply quiet_ret.
  - apply quiet_bind; [apply Hr|]. intros c. destruct (falsy c); apply quiet_ret.
  - apply quiet_bind; [apply quiet_map_each; exact Hr|]. intros ys. apply quiet_ret.
Qed.

(** [getAttributeValue] only reads: whether it returns or throws, no stored
    value changes, and the trace grows by nothing but the report of a falsy
    specifier. *)
Theorem getAttributeValue_only_reads
    (self : PrimaryControl) (input : JsValue) (w : World) :
  snd (getAttributeValue self input w) =
  if falsy input then
    warned w [JString "[PrimaryControl - Warning] getAttributeValue: Unsupported input type:";
              input]
  else w.
Proof.
  unfold getAttributeValue. destruct (falsy input); [reflexivity|].
  apply quiet_getObject.
  - intros i. apply quiet_bind; [|intros v; apply quiet_ret].
    unfold optional_getValue.
    destruct (Xrm.get (Xrm.attributes (formContext self)) i);
      try apply quiet_ret; apply quiet_getValue.
  - intros i. apply quiet_bind; [apply quiet_array_method|]. intros found.
    apply quiet_bind; [|intros vs; apply quiet_ret].
    apply quiet_map_each. intros a. apply quiet_getValue.
Qed.

(** By a name or an index that passes the guard, [getAttributeValue]
    answers [null] without any report when the collection has no such
    attribute, and the stored value when the attribute has a truthy one. *)
Theorem getAttributeValue_by_key
    (self : PrimaryControl) (key : JsValue) (w : World) :
  scalar_key key = true ->
  falsy key = false ->
  (Xrm.get (Xrm.attributes (formContext self)) key = JNull ->
   getAttributeValue self key w = (Ret JNull, w)) /\
  (forall o v,
     Xrm.get (Xrm.attributes (formContext self)) key = JObject o ->
     has_method (JObject o) "getValue" = true ->
     vals w !! oid o = Some v ->
     truthy v = true ->
     getAttributeValue self key w = (Ret v, w)).
Proof.
  intros Hk Hf. split.
  - intros E. unfold getAttributeValue. rewrite Hf.
    erewrite getObject_scalar; [|exact Hk|rewrite E; reflexivity]. reflexivity.
  - intros o v E Hm Hv Ht.
    rewrite (getAttributeValue_found self key o w Hk Hf E Hm), Hv.
    unfold default. cbn [from_option id]. rewrite Ht. reflexivity.
Qed.

Lemma getAttributeValue_by_key_witness :
  getAttributeValue Sample.helper (JString "ghost") Sample.world = (Ret JNull, Sample.world) /\
  getAttributeValue Sample.helper (JString "firstname") Sample.world =
    (Ret (JString "Ann"), Sample.world).
Proof.
  split.
  - apply (getAttributeValue_by_key Sample.helper (JString "ghost") Sample.world);
      reflexivity.
  - apply (proj2 (getAttributeValue_by_key Sample.helper (JString "firstname") Sample.world
                    eq_refl eq_refl) Sample.firstname (JString "Ann")); reflexivity.
Defined.

(** ** Handler attachment: names and capability *)

(** The not-found report of [addSubGridOnRecordSelect] carries the
    operation name the method passes to the engine, ["addSubGridOnSave"]. *)
Theorem addSubGridOnRecordSelect_reports_as_addSubGridOnSave
    (getGrid : Obj -> JsValue) (self : PrimaryControl) (key handler : JsValue) (w : World) :
  scalar_key key = true ->
  Xrm.get (Xrm.controls (formContext self)) key = JNull ->
  addSubGridOnRecordSelect getGrid self key handler w =
  (Ret tt,
   warned w
     [JString ("[PrimaryControl - Warning] addSubGridOnSave: Attribute "
               +:+ dquote +:+ to_text key +:+ dquote +:+ " not found.")]).
Proof.
  intros Hk E. unfold addSubGridOnRecordSelect.
  assert (getControl (Some self) key w = (Ret JNull, w)) as Hget.
  { unfold getControl. erewrite getObject_scalar; [|exact Hk|rewrite E; reflexivity].
    reflexivity. }
  destruct key; unfold scalar_key in Hk; simpl in Hk; try discriminate;
    cbn [addHandler]; rewrite run_bind, Hget; reflexivity.
Qed.

Lemma addSubGridOnRecordSelect_reports_as_addSubGridOnSave_witness :
  addSubGridOnRecordSelect (fun _ => JNull) Sample.helper (JString "contacts")
    Sample.handler Sample.world =
  (Ret tt,
   warned Sample.world
     [JString ("[PrimaryControl - Warning] addSubGridOnSave: Attribute "
               +:+ dquote +:+ "contacts" +:+ dquote +:+ " not found.")]) /\
  addSubGridOnRecordSelect (fun _ => JNull) Sample.helper (JNumber 12)
    Sample.handler Sample.world =
  (Ret tt,
   warned Sample.world
     [JString ("[PrimaryControl - Warning] addSubGridOnSave: Attribute "
               +:+ dquote +:+ "12" +:+ dquote +:+ " not found.")]).
Proof.
  split.
  - apply (addSubGridOnRecordSelect_reports_as_addSubGridOnSave (fun _ => JNull)
             Sample.helper (JString "contacts") Sample.handler Sample.world); reflexivity.
  - apply (addSubGridOnRecordSelect_reports_as_addSubGridOnSave (fun _ => JNull)
             Sample.helper (JNumber 12) Sample.handler Sample.world); reflexivity.
Defined.

(** The capability guard is applied to a direct instance only.  A control
    without [addOnLookupTagClick] that is addressed by its name or index is
    handed to the attachment, which throws; the same control passed as such
    is reported and nothing throws. *)
Theorem addOnLookupTagClick_by_key_is_unguarded
    (self : PrimaryControl) (key : JsValue) (o : Obj) (handler : JsValue) (w : World) :
  scalar_key key = true ->
  Xrm.get (Xrm.controls (formContext self)) key = JObject o ->
  has_method (JObject o) "addOnLookupTagClick" = false ->
  addOnLookupTagClick self key handler w =
    (Throw (TypeError (NotAFunction "addOnLookupTagClick")), w) /\
  addOnLookupTagClick self (JObject o) handler w =
    (Ret tt,
     warned w
       [JString "[PrimaryControl - Warning] addOnLookupTagClick: Unhandled input type (object)";
        JObject o]).
Proof.
  intros Hk E Hm. split.
  - assert (getControl (Some self) key w = (Ret (JObject o), w)) as Hget.
    { unfold getControl. erewrite getObject_scalar; [|exact Hk|rewrite E; reflexivity].
      reflexivity. }
    unfold addOnLookupTagClick.
    destruct key; unfold scalar_key in Hk; simpl in Hk; try discriminate;
      cbn [addHandler]; rewrite run_bind, Hget; cbn [truthy];
      rewrite run_bind; unfold Xrm.invoke; rewrite Hm; reflexivity.
  - unfold addOnLookupTagClick. cbn [addHandler].
    unfold isLookupControl. rewrite Hm, andb_false_r. reflexivity.
Qed.

Lemma addOnLookupTagClick_by_key_is_unguarded_witness :
  addOnLookupTagClick Sample.helper (JString "mobilephone") Sample.handler Sample.world =
    (Throw (TypeError (NotAFunction "addOnLookupTagClick")), Sample.world) /\
  addOnLookupTagClick Sample.helper (JObject Sample.mobilephone) Sample.handler Sample.world =
    (Ret tt,
     warned Sample.world
       [JString "[PrimaryControl - Warning] addOnLookupTagClick: Unhandled input type (object)";
        JObject Sample.mobilephone]).
Proof.
  apply (addOnLookupTagClick_by_key_is_unguarded Sample.helper (JString "mobilephone")
           Sample.mobilephone Sample.handler Sample.world); reflexivity.
Defined.

(** With a predicate, [addPreSearch] attaches in collection order and the
    first accepted control without [addPreSearch] ends the call with a
    [TypeError]: the controls before it keep their handler, those after it
    get none. *)
Theorem addPreSearch_by_predicate_stops_at_first_misfit
    (self : PrimaryControl) (f : Fn) (handler : JsValue)
    (before after : list Obj) (misfit : Obj) (w : World) :
  Xrm.matching f 0 (Xrm.controls (formContext self)) = before ++ misfit :: after ->
  Forall (fun o => has_method (JObject o) "addPreSearch" = true) before ->
  has_method (JObject misfit) "addPreSearch" = false ->
  addPreSearch self (JFunction f) handler w =
  (Throw (TypeError (NotAFunction "addPreSearch")),
   called w (map (fun o => HostCall o "addPreSearch" handler) before)).
Proof.
  intros Hmatch Hbefore Hmisfit. unfold addPreSearch.
  rewrite (addHandler_predicate f _ _ _ _ _ w w
             (map JObject (Xrm.matching f 0 (Xrm.controls (formContext self)))));
    [|reflexivity].
  rewrite Hmatch, map_app, for_each_app, run_bind.
  rewrite (for_each_invoke_recorded before "addPreSearch" handler w Hbefore eq_refl eq_refl).
  cbn [map for_each]. rewrite !run_bind. unfold Xrm.invoke. rewrite Hmisfit.
  reflexivity.
Qed.

Lemma addPreSearch_by_predicate_stops_at_first_misfit_witness :
  addPreSearch
    (mkPrimaryControl
       (Xrm.mkForm [] [Sample.parentaccountid; Sample.mobilephone; Sample.parentaccountid]))
    (JFunction (mkFn 103 (fun _ _ => true))) Sample.handler Sample.world =
  (Throw (TypeError (NotAFunction "addPreSearch")),
   called Sample.world [HostCall Sample.parentaccountid "addPreSearch" Sample.handler]).
Proof.
  apply (addPreSearch_by_predicate_stops_at_first_misfit
           (mkPrimaryControl
              (Xrm.mkForm [] [Sample.parentaccountid; Sample.mobilephone;
                              Sample.parentaccountid]))
           (mkFn 103 (fun _ _ => true)) Sample.handler
           [Sample.parentaccountid] [Sample.parentaccountid] Sample.mobilephone
           Sample.world).
  - reflexivity.
  - repeat constructor.
  - reflexivity.
Defined.

(** Index [0] is a key like any other for the getters and for handler
    attachment, which have no falsy-input guard: the first attribute is
    found and gets the handler, while [getAttributeValue] refuses the same
    index. *)
Theorem index_zero_resolved_except_by_guarded_operations
    (self : PrimaryControl) (first : Obj) (rest : list Obj) (handler : JsValue) (w : World) :
  Xrm.attributes (formContext self) = first :: rest ->
  has_method (JObject first) "addOnChange" = true ->
  getAttribute (Some self) (JNumber 0) w = (Ret (JObject first), w) /\
  addOnChange self (JNumber 0) handler w =
    (Ret tt, called w [HostCall first "addOnChange" handler]) /\
  getAttributeValue self (JNumber 0) w =
    (Ret JNull,
     warned w [JString "[PrimaryControl - Warning] getAttributeValue: Unsupported input type:";
               JNumber 0]).
Proof.
  intros Hattrs Hm.
  assert (Xrm.get (Xrm.attributes (formContext self)) (JNumber 0) = JObject first) as E.
  { rewrite Hattrs. reflexivity. }
  split; [|split].
  - unfold getAttribute. erewrite getObject_scalar; [|reflexivity|apply run_ret].
    rewrite E. reflexivity.
  - apply (proj2 (addOnChange_by_key self (JNumber 0) handler w eq_refl) first E Hm).
  - reflexivity.
Qed.

Lemma index_zero_resolved_except_by_guarded_operations_witness :
  getAttribute (Some Sample.helper) (JNumber 0) Sample.world =
    (Ret (JObject Sample.firstname), Sample.world) /\
  addOnChange Sample.helper (JNumber 0) Sample.handler Sample.world =
    (Ret tt, called Sample.world [HostCall Sample.firstname "addOnChange" Sample.handler]) /\
  getAttributeValue Sample.helper (JNumber 0) Sample.world =
    (Ret JNull,
     warned Sample.world
       [JString "[PrimaryControl - Warning] getAttributeValue: Unsupported input type:";
        JNumber 0]).
Proof.
  apply (index_zero_resolved_except_by_guarded_operations Sample.helper Sample.firstname
           [Sample.creditlimit] Sample.handler Sample.world); reflexivity.
Defined.

(** ** Sections *)

(** [getSection] asks [getTab] for all tabs by calling it without a
    specifier, and [getTab] answers [null] to that; so every lookup of a
    section, by name, index, predicate or non-empty array, ends in a
    [TypeError] on that [null].  Only no specifier and the empty array
    return. *)
Theorem getSection_throws_on_every_lookup
    (tabs : list Obj) (newTabControl : JsValue -> JsValue)
    (TabControl_getSection : JsValue -> JsValue -> M JsValue)
    (self : PrimaryControl) (input : JsValue) (w : World) :
  getTab tabs newTabControl (Some self) JUndefined w = (Ret JNull, w) /\
  getSection tabs newTabControl TabControl_getSection (Some self) JUndefined w =
    (Ret JNull, w) /\
  getSection tabs newTabControl TabControl_getSection (Some self) (JArray []) w =
    (Ret (JArray []), w) /\
  (input <> JUndefined -> input <> JArray [] ->
   getSection tabs newTabControl TabControl_getSection (Some self) input w =
     (Throw (TypeError (PropertyOfNull "map")), w) \/
   getSection tabs newTabControl TabControl_getSection (Some self) input w =
     (Throw (TypeError (PropertyOfNull "flatMap")), w)).
Proof.
  repeat split; try reflexivity.
  intros Hu He.
  destruct input as [| | | | | | |[|x l]]; try congruence;
    try (right; reflexivity); left; reflexivity.
Qed.

Lemma getSection_throws_on_every_lookup_witness :
  getSection [Sample.section] (fun t => t) (fun _ _ => mret JNull)
    (Some Sample.helper) (JString "AddressSection") Sample.world =
    (Throw (TypeError (PropertyOfNull "map")), Sample.world) \/
  getSection [Sample.section] (fun t => t) (fun _ _ => mret JNull)
    (Some Sample.helper) (JString "AddressSection") Sample.world =
    (Throw (TypeError (PropertyOfNull "flatMap")), Sample.world).
Proof.
  apply (proj2 (proj2 (proj2
           (getSection_throws_on_every_lookup [Sample.section] (fun t => t)
              (fun _ _ => mret JNull) Sample.helper (JString "AddressSection")
              Sample.world)))).
  - discriminate.
  - discriminate.
Defined.

(** ** The engines do not throw by themselves *)

(** On a specifier that is a finite nesting of arrays (no array that
    contains itself, on which the recursion of the source has no end), both
    dispatch engines return when their callbacks return and the predicate
    lookup answers an array: on such a specifier an exception of
    [setToObject] or [addHandler] is always an exception of a callback. *)
Theorem dispatch_engines_return
    (input value : JsValue)
    (getter getterAll get getDelegate : JsValue -> M JsValue)
    (valueApplier : JsValue -> JsValue -> M unit) (apply : JsValue -> M unit)
    (isValid : JsValue -> bool) (addHandlerName : string) :
  (forall i, returns (getter i)) ->
  (forall f w, exists l w', getterAll (JFunction f) w = (Ret (JArray l), w')) ->
  (forall c v, returns (valueApplier c v)) ->
  (forall i, returns (get i)) ->
  (forall f w, exists l w', getDelegate (JFunction f) w = (Ret (JArray l), w')) ->
  (forall i, returns (apply i)) ->
  returns (setToObject input value getter getterAll valueApplier isValid) /\
  returns (addHandler input get getDelegate apply isValid addHandlerName).
Proof.
  intros Hgetter HgetterAll Happlier Hget HgetDelegate Happly. split.
  - induction input as [| | | | | | |items IH] using JsValue_nested_ind;
      cbn [setToObject].
    + apply returns_ret.
    + destruct (isValid JNull); [apply Happlier|apply returns_ret].
    + destruct (isValid (JBool b)); [apply Happlier|apply returns_ret].
    + apply returns_bind; [apply Hgetter|]. intros c.
      destruct (falsy c); [apply Happlier|apply returns_ret].
    + apply returns_bind; [apply Hgetter|]. intros c.
      destruct (falsy c); [apply Happlier|apply returns_ret].
    + intros w. destruct (HgetterAll f w) as [l [w1 E]].
      rewrite run_bind, E, run_bind. cbn [array_method]. rewrite run_ret.
      apply returns_for_each. apply Forall_forall. intros x _. apply Happlier.
    + destruct (isValid (JObject o)); [apply Happlier|apply returns_ret].
    + apply returns_for_each. exact IH.
  - induction input as [| | | | | | |items IH] using JsValue_nested_ind;
      cbn [addHandler].
    + apply returns_warn.
    + destruct (isValid JNull); [apply Happly|apply returns_warn].
    + destruct (isValid (JBool b)); [apply Happly|apply returns_warn].
    + apply returns_bind; [apply Hget|]. intros item.
      destruct (truthy item); [apply Happly|apply returns_warn].
    + apply returns_bind; [apply Hget|]. intros item.
      destruct (truthy item); [apply Happly|apply returns_warn].
    + intros w. destruct (HgetDelegate f w) as [l [w1 E]].
      rewrite run_bind, E, run_bind. cbn [iterate]. rewrite run_ret.
      apply returns_for_each. apply Forall_forall. intros x _. apply Happly.
    + destruct (isValid (JObject o)); [apply Happly|apply returns_warn].
    + apply returns_for_each. exact IH.
Qed.

Lemma dispatch_engines_return_witness :
  returns
    (setToObject (JArray [JString "ghost"; JArray [JFunction Sample.credit_only]])
       (JString "X")
       (getAttribute (Some Sample.helper)) (getAttribute (Some Sample.helper))
       (fun component value => warnMessage [component; value]) isAttribute) /\
  returns
    (addHandler (JArray [JString "ghost"; JArray [JFunction Sample.credit_only]])
       (getAttribute (Some Sample.helper)) (getAttribute (Some Sample.helper))
       (fun item => warnMessage [item]) isAttribute "addOnChange").
Proof.
  assert (forall i, returns (getAttribute (Some Sample.helper) i)) as Hget.
  { intros i. apply getObject_returns; intros k; apply returns_ret. }
  assert (forall f w, exists l w',
            getAttribute (Some Sample.helper) (JFunction f) w = (Ret (JArray l), w'))
    as Hall.
  { intros f w. eexists. eexists. reflexivity. }
  apply (dispatch_engines_return
           (JArray [JString "ghost"; JArray [JFunction Sample.credit_only]])
           (JString "X")
           (getAttribute (Some Sample.helper)) (getAttribute (Some Sample.helper))
           (getAttribute (Some Sample.helper)) (getAttribute (Some Sample.helper))
           (fun component value => warnMessage [component; value])
           (fun item => warnMessage [item]) isAttribute "addOnChange").
  - exact Hget.
  - exact Hall.
  - intros c v. apply returns_warn.
  - exact Hget.
  - exact Hall.
  - intros i. apply returns_warn.
Defined.

(** ** The factory *)

(** [Provider.from] throws its [Error] on a falsy context and on no other;
    an object with [getFormContext] becomes a [FormContext] that keeps the
    context and the host's form context, and every other truthy value, an
    object or not, becomes a [PrimaryControl] around it. *)
Theorem Provider_from_cases (getFormContext : Obj -> JsValue) (context : JsValue) :
  (truthy context = false ->
   Provider.from getFormContext context =
   Throw (Error ("[D365 Form Scripting Framework - Provider] Invalid context provided. Provided context: "
                 +:+ to_text context))) /\
  (forall o, context = JObject o -> has_method context "getFormContext" = true ->
   Provider.from getFormContext context =
   Ret (Provider.NewFormContext context (getFormContext o))) /\
  (truthy context = true -> isExecutionContext context = false ->
   Provider.from getFormContext context = Ret (Provider.NewPrimaryControl context)).
Proof.
  unfold Provider.from. repeat split.
  - intros ->. reflexivity.
  - intros o -> Hm. unfold isExecutionContext.
    cbn [truthy isObject typeof strict_ne_null andb].
    rewrite Hm. reflexivity.
  - intros -> ->. reflexivity.
Qed.

Lemma Provider_from_cases_witness :
  Provider.from (fun _ => JObject Sample.section) JNull =
    Throw (Error "[D365 Form Scripting Framework - Provider] Invalid context provided. Provided context: null") /\
  Provider.from (fun _ => JObject Sample.section) (JObject Sample.executionContext) =
    Ret (Provider.NewFormContext (JObject Sample.executionContext) (JObject Sample.section)) /\
  Provider.from (fun _ => JObject Sample.section) (JString "not a form") =
    Ret (Provider.NewPrimaryControl (JString "not a form")).
Proof.
  split; [|split].
  - apply (proj1 (Provider_from_cases (fun _ => JObject Sample.section) JNull)).
    reflexivity.
  - apply (proj1 (proj2 (Provider_from_cases (fun _ => JObject Sample.section)
                           (JObject Sample.executionContext))) Sample.executionContext);
      reflexivity.
  - apply (proj2 (proj2 (Provider_from_cases (fun _ => JObject Sample.section)
                           (JString "not a form")))); reflexivity.
Defined.

(** ** Reading values over an array of keys *)

(** Over an array of names and indexes, [getAttributeValue] answers the
    stored values in array order, and leaves out every key that has no
    attribute and every attribute that is empty: the two cases cannot be
    told apart in the answer, and an answer may be shorter than the array. *)
Theorem getAttributeValue_over_keys
    (self : PrimaryControl) (keys : list JsValue) (w : World) :
  Forall (fun k => scalar_key k = true) keys ->
  Forall (fun a => has_method (JObject a) "getValue" = true)
    (Xrm.attributes (formContext self)) ->
  getAttributeValue self (JArray keys) w =
  (Ret (JArray
          (List.filter strict_ne_null
             (map (fun key =>
                     match Xrm.get (Xrm.attributes (formContext self)) key with
                     | JObject o => nullish (default JNull (vals w !! oid o)) JNull
                     | _ => JNull
                     end) keys))), w).
Proof.
  intros Hkeys Hall. unfold getAttributeValue. cbn [falsy truthy negb getObject].
  rewrite run_bind.
  rewrite (map_each_query _
             (fun key =>
                match Xrm.get (Xrm.attributes (formContext self)) key with
                | JObject o => nullish (default JNull (vals w !! oid o)) JNull
                | _ => JNull
                end) keys w); [reflexivity|].
  intros k Hk. rewrite Forall_forall in Hkeys.
  apply list_elem_of_In, Hkeys in Hk.
  apply (getAttributeValue_resolver (Xrm.attributes (formContext self)) k w Hk Hall).
Qed.

Lemma getAttributeValue_over_keys_witness :
  getAttributeValue
    (mkPrimaryControl
       (Xrm.mkForm [Sample.firstname; Sample.creditlimit;
                    mkObj 8 "nickname" Sample.attribute_methods] []))
    (JArray [JString "nickname"; JString "ghost"; JNumber 1; JString "firstname"])
    Sample.world =
  (Ret (JArray [JNumber 0; JString "Ann"]), Sample.world).
Proof.
  apply (getAttributeValue_over_keys
           (mkPrimaryControl
              (Xrm.mkForm [Sample.firstname; Sample.creditlimit;
                           mkObj 8 "nickname" Sample.attribute_methods] []))
           [JString "nickname"; JString "ghost"; JNumber 1; JString "firstname"]
           Sample.world).
  - repeat constructor.
  - simpl. repeat constructor.
Defined.

(** ** The requirement-level aliases *)

(** On every specifier that passes the falsy-input guard, [setOptional],
    [setRecommended] and [setMandatory] are [setRequiredLevel] with the
    levels ["none"], ["recommended"] and ["required"]; on an attribute
    passed as such this is one host call of [setRequiredLevel]. *)
Theorem requirement_aliases_are_setRequiredLevel
    (self : PrimaryControl) (input : JsValue) (w : World) :
  falsy input = false ->
  setOptional self input w = setRequiredLevel self input (JString "none") w /\
  setRecommended self input w = setRequiredLevel self input (JString "recommended") w /\
  setMandatory self input w = setRequiredLevel self input (JString "required") w /\
  (forall o,
     input = JObject o ->
     isAttribute input = true ->
     has_method input "setRequiredLevel" = true ->
     setMandatory self input w =
       (Ret tt, called w [HostCall o "setRequiredLevel" (JString "required")])).
Proof.
  intros Hf. unfold setOptional, setRecommended, setMandatory, setRequiredLevel.
  rewrite Hf. repeat split.
  intros o -> Ha Hm. cbn [setToObject]. rewrite Ha, run_bind.
  unfold Xrm.invoke. rewrite Hm. reflexivity.
Qed.

Lemma requirement_aliases_are_setRequiredLevel_witness :
  setOptional Sample.helper (JArray [JObject Sample.firstname; JObject Sample.section])
    Sample.world =
  setRequiredLevel Sample.helper (JArray [JObject Sample.firstname; JObject Sample.section])
    (JString "none") Sample.world /\
  setMandatory Sample.helper (JObject Sample.creditlimit) Sample.world =
    (Ret tt,
     called Sample.world
       [HostCall Sample.creditlimit "setRequiredLevel" (JString "required")]).
Proof.
  split.
  - apply (requirement_aliases_are_setRequiredLevel Sample.helper
             (JArray [JObject Sample.firstname; JObject Sample.section]) Sample.world).
    reflexivity.
  - apply (proj2 (proj2 (proj2
             (requirement_aliases_are_setRequiredLevel Sample.helper
                (JObject Sample.creditlimit) Sample.world eq_refl)))
             Sample.creditlimit); reflexivity.
Defined.
